(** * Load Image FAF: path resolution, archive staging and the decoder chain

    A shallow embedding of
    [backend/src/packages/chaiNNer_standard/image/io/load_imageFAF.py].

    Python strings are [string]; the file system and the logger are an
    explicit [World] threaded through a state-and-exception monad; the image
    codecs, the texture converter and the zip reader are fields of an
    environment record [Env]. *)

From Stdlib Require Import String Ascii List ZArith Lia Bool.
From stdpp Require Import base gmap strings.

Local Open Scope string_scope.

(** ** Python string methods *)

Module PyStr.

(** [s[i:j]] for [0 <= i <= j]. *)
Definition slice (s : string) (i j : nat) : string := substring i (j - i) s.

(** [str.endswith] *)
Definition endswith (s suffix : string) : bool :=
  let n := String.length s in
  let m := String.length suffix in
  if (m <=? n)%nat then String.eqb (slice s (n - m) n) suffix else false.

(** [str.removesuffix]: strips [suffix] once when it is non-empty and [s]
    ends with it. *)
Definition removesuffix (s suffix : string) : string :=
  if negb (String.eqb suffix "") && endswith s suffix
  then slice s 0 (String.length s - String.length suffix)
  else s.

Definition lower_ascii (c : ascii) : ascii :=
  let n := nat_of_ascii c in
  if ((65 <=? n)%nat && (n <=? 90)%nat)%bool then ascii_of_nat (n + 32) else c.

(** [str.lower] on the ASCII range. *)
Fixpoint lower (s : string) : string :=
  match s with
  | EmptyString => EmptyString
  | String c s' => String (lower_ascii c) (lower s')
  end.

(** [s.rfind(c)] for a class of characters, as an index counted from
    [offset]; [-1] when no character matches. *)
Fixpoint rfind_from (P : ascii -> bool) (s : string) (offset : Z) : Z :=
  match s with
  | EmptyString => (-1)%Z
  | String c s' =>
      let r := rfind_from P s' (offset + 1)%Z in
      if (0 <=? r)%Z then r else if P c then offset else (-1)%Z
  end.

Definition rfind (P : ascii -> bool) (s : string) : Z := rfind_from P s 0%Z.

(** [s[-1:]], the last character of a string. *)
Fixpoint last_char (s : string) : option ascii :=
  match s with
  | EmptyString => None
  | String c EmptyString => Some c
  | String _ s' => last_char s'
  end.

(** The double quote. *)
Definition dquote_char : ascii := ascii_of_nat 34.

Fixpoint contains_char (c : ascii) (s : string) : bool :=
  match s with
  | EmptyString => false
  | String x s' => Ascii.eqb x c || contains_char c s'
  end.

Definition hex_digit (n : nat) : ascii :=
  nth n ["0"; "1"; "2"; "3"; "4"; "5"; "6"; "7"; "8"; "9";
         "a"; "b"; "c"; "d"; "e"; "f"]%char "0"%char.

(** One character of [repr(s)] between the quotes [quote]: the quote and
    the backslash are escaped, tab, newline and return have their letter,
    the other control characters their code, and every other character is
    kept (the bytes of a character beyond ASCII too, as [repr] keeps what is
    printable). *)
Definition repr_char (quote c : ascii) : string :=
  let n := nat_of_ascii c in
  if Ascii.eqb c quote || Ascii.eqb c "\" then String "\" (String c "")
  else if (n =? 9)%nat then "\t"
  else if (n =? 10)%nat then "\n"
  else if (n =? 13)%nat then "\r"
  else if ((n <? 32)%nat || (n =? 127)%nat)%bool then
    String "\" (String "x" (String (hex_digit (n / 16))
                              (String (hex_digit (n mod 16)) "")))
  else String c "".

Fixpoint repr_body (quote : ascii) (s : string) : string :=
  match s with
  | EmptyString => EmptyString
  | String c s' => append (repr_char quote c) (repr_body quote s')
  end.

(** [repr(s)], what [%r] prints: in single quotes, or in double quotes when
    [s] has a single quote and no double quote. *)
Definition py_repr (s : string) : string :=
  let quote :=
    if contains_char "'" s && negb (contains_char dquote_char s)
    then dquote_char else "'"%char in
  String quote (append (repr_body quote s) (String quote "")).

(** [s.split(sep)] for a separator of one character. *)
Fixpoint split_on (sep : ascii) (s : string) : list string :=
  match s with
  | EmptyString => [EmptyString]
  | String c s' =>
      if Ascii.eqb c sep then EmptyString :: split_on sep s'
      else match split_on sep s' with
           | [] => [String c EmptyString]
           | part :: parts => String c part :: parts
           end
  end.

(** [sep.join(parts)] *)
Fixpoint join (sep : ascii) (parts : list string) : string :=
  match parts with
  | [] => EmptyString
  | [part] => part
  | part :: parts' => append part (String sep (join sep parts'))
  end.

(** [s.rstrip('.')] *)
Fixpoint rstrip_dots (s : string) : string :=
  match s with
  | EmptyString => EmptyString
  | String c s' =>
      match rstrip_dots s' with
      | EmptyString => if Ascii.eqb c "." then EmptyString else String c EmptyString
      | rest => String c rest
      end
  end.

Fixpoint all_chars (P : ascii -> bool) (s : string) : bool :=
  match s with
  | EmptyString => true
  | String c s' => P c && all_chars P s'
  end.


Fixpoint map_chars (f : ascii -> ascii) (s : string) : string :=
  match s with
  | EmptyString => EmptyString
  | String c s' => String (f c) (map_chars f s')
  end.

End PyStr.

Import PyStr.

(** ** Python values, exceptions and the world *)

Inductive exn : Type :=
| RuntimeError (msg : string)
| RuntimeErrorFrom (msg : string) (cause : exn)
| KeyError (msg : string)
| OSError (msg : string)
| ForeignError (origin msg : string).

(** [str(e)], as the f-strings of the source print an exception; a
    [KeyError] prints the [repr] of its argument. *)
Definition exn_str (e : exn) : string :=
  match e with
  | RuntimeError msg => msg
  | RuntimeErrorFrom msg _ => msg
  | KeyError msg => py_repr msg
  | OSError msg => msg
  | ForeignError _ msg => msg
  end.

Inductive Result (A : Type) : Type :=
| Ok (a : A)
| Raise (e : exn).
Arguments Ok {A} a.
Arguments Raise {A} e.

(** A numpy array as the image codecs produce it: two-dimensional
    ([channels = None], shape [(h, w)]) or three-dimensional (shape
    [(h, w, c)]), with its buffer in row-major order. *)
Record ndarray : Type := mk_ndarray {
  height : nat;
  width : nat;
  channels : option nat;
  data : list Z
}.

Inductive node : Type :=
| File (content : list Byte.byte)
| Dir.

Inductive Level : Type := DEBUG | WARNING.

(** What a call can observe and change: the paths on disk and the records
    handed to [sanic.log.logger]. *)
Record World : Type := mk_World {
  fs : gmap string node;
  log : list (Level * string)
}.

Definition set_fs (f : gmap string node) (w : World) : World :=
  {| fs := f; log := log w |}.

(** ** The monad of Python statements: state and exceptions *)

Definition M (A : Type) : Type := World -> Result A * World.

Definition ret {A} (a : A) : M A := fun w => (Ok a, w).

Definition raise {A} (e : exn) : M A := fun w => (Raise e, w).

Definition bind {A B} (m : M A) (k : A -> M B) : M B :=
  fun w =>
    match m w with
    | (Ok a, w') => k a w'
    | (Raise e, w') => (Raise e, w')
    end.

(** [try: m except Exception as e: handler e] *)
Definition try_except {A} (m : M A) (handler : exn -> M A) : M A :=
  fun w =>
    match m w with
    | (Ok a, w') => (Ok a, w')
    | (Raise e, w') => handler e w'
    end.

(** [try: m finally: cleanup]: the cleanup runs on both outcomes, and an
    exception it raises replaces the outcome of [m]. *)
Definition try_finally {A} (m : M A) (cleanup : M unit) : M A :=
  fun w =>
    match m w with
    | (r, w') =>
        match cleanup w' with
        | (Ok _, w'') => (r, w'')
        | (Raise e, w'') => (Raise e, w'')
        end
    end.

Definition lift {A} (r : Result A) : M A := fun w => (r, w).

Definition read_fs {A} (f : gmap string node -> Result A) : M A :=
  fun w => (f (fs w), w).

Declare Scope py_scope.
Delimit Scope py_scope with py.
Notation "x <- c1 ;; c2" := (bind c1 (fun x => c2))
  (at level 100, c1 at next level, right associativity) : py_scope.
Notation "c1 ;; c2" := (bind c1 (fun _ => c2))
  (at level 100, right associativity) : py_scope.
Local Open Scope py_scope.

Definition logger_emit (lvl : Level) (msg : string) : M unit :=
  fun w => (Ok tt, {| fs := fs w; log := log w ++ [(lvl, msg)] |}).

Definition logger_warning : string -> M unit := logger_emit WARNING.
Definition logger_debug : string -> M unit := logger_emit DEBUG.

(** ** The platform *)

(** [os.path] is [ntpath] on Windows and [posixpath] elsewhere;
    [platform.system()] is the system's name. *)
Inductive OS : Type :=
| Windows
| Posix (sysname : string).

Definition platform_system (o : OS) : string :=
  match o with
  | Windows => "Windows"
  | Posix sysname => sysname
  end.

Definition os_sep (o : OS) : ascii :=
  match o with
  | Windows => "\"%char
  | Posix _ => "/"%char
  end.

(** [sep] and [altsep] of [os.path]. *)
Definition is_sep (o : OS) (c : ascii) : bool :=
  match o with
  | Windows => Ascii.eqb c "\" || Ascii.eqb c "/"
  | Posix _ => Ascii.eqb c "/"
  end.

Definition is_dot (c : ascii) : bool := Ascii.eqb c ".".

Fixpoint all_dots (s : string) : bool :=
  match s with
  | EmptyString => true
  | String c s' => is_dot c && all_dots s'
  end.

(** [os.path.splitext]: the extension starts at the last dot of the last
    path component, unless that component has only dots before it. *)
Definition splitext (o : OS) (p : string) : string * string :=
  let sepIndex := rfind (is_sep o) p in
  let dotIndex := rfind is_dot p in
  if (sepIndex <? dotIndex)%Z then
    if all_dots (slice p (Z.to_nat (sepIndex + 1)) (Z.to_nat dotIndex))
    then (p, "")
    else (slice p 0 (Z.to_nat dotIndex),
          slice p (Z.to_nat dotIndex) (String.length p))
  else (p, "").

(** Modelled from the spec: [split_file_path] of [nodes.utils.utils] is not
    among the sources. The spec keys every decoder on the extension of the
    path; this is the third component of the helper, the extension as
    [os.path.splitext] gives it. Its first two components (directory and
    base name) are bound on line 197 of the source and never read. *)
Definition split_file_path_ext (o : OS) (path : string) : string :=
  snd (splitext o path).

(** ** Texture kinds and path resolution *)

(** The enumeration [TEXTURE]: [TEXTURE_name] is the member's name,
    [TEXTURE_value] its value, [TEX_LABEL] the label table of the node. *)
Inductive TEXTURE : Type := Albedo | SpecTeam | normalsTS.

Definition TEXTURE_name (t : TEXTURE) : string :=
  match t with
  | Albedo => "Albedo"
  | SpecTeam => "SpecTeam"
  | normalsTS => "normalsTS"
  end.

Definition TEXTURE_value (t : TEXTURE) : string :=
  match t with
  | Albedo => "Albedo"
  | SpecTeam => "SpecTeam"
  | normalsTS => "normals"
  end.

Definition TEX_LABEL (t : TEXTURE) : string :=
  match t with
  | Albedo => "Albedo"
  | SpecTeam => "SpecTeam"
  | normalsTS => "normalsTS"
  end.

(** The file-name suffix the data model of the specification gives each
    texture kind, to compare with the name the code builds the file name
    from. *)
Definition spec_suffix (t : TEXTURE) : string :=
  match t with
  | Albedo => "Albedo"
  | SpecTeam => "SpecTeam"
  | normalsTS => "normalsTS"
  end.

Inductive ResolvedLocation : Type :=
| Direct (path : string)
| Archived (archivePath entryName : string).

(** The test of line 182 and the strings of lines 177 to 192 of
    [load_image_node]: the archive and the member handed to [ZipFile] and
    [extract], or the path of the file in a directory. *)
Definition resolve (_path unit : string) (texture : TEXTURE) : ResolvedLocation :=
  let texture := TEXTURE_name texture in
  let filename := unit +:+ "_" +:+ texture in
  let path := _path in
  if endswith path "units.scd" then
    Archived path ("units/" +:+ unit +:+ "/" +:+ filename +:+ ".dds")
  else
    Direct (removesuffix path "\" +:+ "\" +:+ unit +:+ "\" +:+ filename +:+ ".dds").

(** ** External collaborators *)

Inductive ColorConversionCode : Type := COLOR_RGB2BGR | COLOR_RGBA2BGRA.

(** What the module imports and does not define: the platform, the format
    registry of [nodes.impl.image_formats], the OpenCV and PIL codecs, the
    texconv wrapper of [nodes.impl.dds.texconv], the names [mkdtemp] tries and
    the central directory of a zip file. *)
Record Env : Type := mk_Env {
  os : OS;
  get_opencv_formats : list string;
  get_pil_formats : list string;
  (** [cv2.imdecode(buf, cv2.IMREAD_UNCHANGED)]: [None] for bytes it cannot
      decode. *)
  cv2_imdecode : list Byte.byte -> Result (option ndarray);
  (** [cv2.imread(path, cv2.IMREAD_UNCHANGED)] *)
  cv2_imread : string -> gmap string node -> Result (option ndarray);
  (** [np.array(Image.open(path))] *)
  PIL_open_array : string -> gmap string node -> Result ndarray;
  (** [dds_to_png_texconv(path)]: writes a PNG and returns its path. *)
  dds_to_png_texconv : string -> M string;
  (** [tempfile.TMP_MAX], the number of names [mkdtemp] tries *)
  TMP_MAX : nat;
  (** the path of the directory [mkdtemp] tries for a prefix at its attempt
      number [seq]: the temporary directory of the system joined with the
      prefix and a random name *)
  mkdtemp_candidate : string -> nat -> string;
  (** the members of a zip file by name, [None] for bytes that are not a zip
      file *)
  zip_entries : list Byte.byte -> option (gmap string (list Byte.byte))
}.

(** *** numpy and OpenCV on arrays *)

(** Modelled from the spec: [get_h_w_c] of [nodes.utils.utils] is not among
    the sources. The spec speaks of the channel count of the decoded image:
    the third axis of a three-dimensional array, and one for a
    two-dimensional array. *)
Definition get_h_w_c (image : ndarray) : nat * nat * nat :=
  (height image, width image,
   match channels image with
   | None => 1
   | Some c => c
   end).

Fixpoint swap_rb3 (buf : list Z) : list Z :=
  match buf with
  | r :: g :: b :: rest => b :: g :: r :: swap_rb3 rest
  | _ => buf
  end.

Fixpoint swap_rb4 (buf : list Z) : list Z :=
  match buf with
  | r :: g :: b :: a :: rest => b :: g :: r :: a :: swap_rb4 rest
  | _ => buf
  end.

(** [cv2.cvtColor] for the two codes the module uses, on an array of three
    and of four channels: every pixel has its first and third channel
    exchanged. *)
Definition cvtColor (src : ndarray) (code : ColorConversionCode) : ndarray :=
  {| height := height src;
     width := width src;
     channels := channels src;
     data := match code with
             | COLOR_RGB2BGR => swap_rb3 (data src)
             | COLOR_RGBA2BGRA => swap_rb4 (data src)
             end |}.

(** *** The file system *)

(** [k] is [d] itself or lies below it. *)
Definition inside (o : OS) (d k : string) : Prop :=
  k = d \/ String.prefix (d +:+ String (os_sep o) "") k = true.

Global Instance inside_dec o d k : Decision (inside o d k).
Proof. unfold inside. apply _. Defined.

Fixpoint replace_char (a b : ascii) (s : string) : string :=
  match s with
  | EmptyString => EmptyString
  | String c s' => String (if Ascii.eqb c a then b else c) (replace_char a b s')
  end.

(** The directories between [base] and a file [rest] below it, outermost
    first; [base] ends with a separator. *)
Fixpoint upper_dirs (sep : ascii) (base rest : string) : list string :=
  match rest with
  | EmptyString => []
  | String c rest' =>
      if Ascii.eqb c sep
      then base :: upper_dirs sep (base +:+ String c "") rest'
      else upper_dirs sep (base +:+ String c "") rest'
  end.

Definition makedirs (dirs : list string) (f : gmap string node) : gmap string node :=
  foldr (fun d m => <[d := Dir]> m) f dirs.

(** The characters [zipfile] replaces by an underscore on Windows. *)
Definition windows_illegal (c : ascii) : bool :=
  existsb (Ascii.eqb c) [":"; "<"; ">"; "|"; dquote_char; "?"; "*"]%char.

Definition nonempty (s : string) : bool := negb (String.eqb s "").

(** A name that is one part of a path on every platform and that Windows
    takes as it is: not empty, without a separator or an illegal character,
    and not ending in a dot. *)
Definition plain_part (s : string) : bool :=
  nonempty s
  && all_chars (fun c => negb (Ascii.eqb c "/" || Ascii.eqb c "\"
                               || windows_illegal c)) s
  && negb (match last_char s with
           | Some c => Ascii.eqb c "."
           | None => false
           end).

(** [ZipFile._sanitize_windows_name], as CPython 3.11 has it: the illegal
    characters become underscores, every part loses its trailing dots, and
    the parts left empty are dropped. *)
Definition sanitize_windows_name (arcname : string) (pathsep : ascii) : string :=
  let arcname := map_chars (fun c => if windows_illegal c then "_"%char else c)
                   arcname in
  join pathsep (List.filter nonempty (map rstrip_dots (split_on pathsep arcname))).

(** The name below the target directory at which [zipfile] writes a member
    (the first lines of [ZipFile._extract_member]): every slash becomes the
    separator of the platform, the empty parts and the parts [.] and [..]
    are dropped, and on Windows the name is sanitized. *)
Definition arcname_of (o : OS) (filename : string) : string :=
  let sep := os_sep o in
  let arcname := replace_char "/" sep filename in
  let invalid_path_part x :=
    String.eqb x "" || String.eqb x "." || String.eqb x ".." in
  let arcname :=
    join sep (List.filter (fun x => negb (invalid_path_part x))
                (split_on sep arcname)) in
  match o with
  | Windows => sanitize_windows_name arcname sep
  | Posix _ => arcname
  end.

Section Program.

Variable E : Env.

(** [np.fromfile(path, dtype=np.uint8)] *)
Definition np_fromfile (path : string) : M (list Byte.byte) :=
  fun w =>
    match fs w !! path with
    | Some (File b) => (Ok b, w)
    | _ => (Raise (OSError path), w)
    end.

(** [tempfile.mkdtemp(prefix=...)]: the first of [TMP_MAX] candidate names
    that does not exist is made a directory; a name that exists is passed
    over, and when none is left the call raises its [FileExistsError], an
    [OSError]. *)
Fixpoint mkdtemp_from (prefix : string) (seq tries : nat) : M string :=
  fun w =>
    match tries with
    | 0 => (Raise (OSError "[Errno 17] No usable temporary directory name found"), w)
    | S tries' =>
        let file := mkdtemp_candidate E prefix seq in
        match fs w !! file with
        | None => (Ok file, set_fs (<[file := Dir]> (fs w)) w)
        | Some _ => mkdtemp_from prefix (S seq) tries' w
        end
    end.

Definition mkdtemp (prefix : string) : M string :=
  mkdtemp_from prefix 0 (TMP_MAX E).

(** [ZipFile(file, 'r')] *)
Definition ZipFile (file : string) : M (gmap string (list Byte.byte)) :=
  fun w =>
    match fs w !! file with
    | Some (File b) =>
        match zip_entries E b with
        | Some z => (Ok z, w)
        | None => (Raise (ForeignError "zipfile" "File is not a zip file"), w)
        end
    | _ => (Raise (OSError file), w)
    end.

(** [z.extract(member, path=path)] for a member that names a file below a
    directory, as the member of the node does ([units/...dds]; such a name
    has no drive). A name that is not in the archive is a [KeyError] whose
    message prints the name with [%r]. Otherwise the member is written below
    [path] at [arcname_of] its name, and the directories above it are
    made. *)
Definition ZipFile_extract (z : gmap string (list Byte.byte))
    (member path : string) : M string :=
  fun w =>
    match z !! member with
    | None =>
        (Raise (KeyError ("There is no item named " +:+ py_repr member
                            +:+ " in the archive")), w)
    | Some content =>
        let sep := os_sep (os E) in
        let arcname := arcname_of (os E) member in
        let base := path +:+ String sep "" in
        let targetpath := base +:+ arcname in
        (Ok targetpath,
         set_fs (<[targetpath := File content]>
                   (makedirs (upper_dirs sep base arcname) (fs w))) w)
    end.

(** [os.remove(path)] *)
Definition os_remove (path : string) : M unit :=
  fun w =>
    match fs w !! path with
    | Some (File _) => (Ok tt, set_fs (delete path (fs w)) w)
    | _ => (Raise (OSError path), w)
    end.

(** [shutil.rmtree(path)] *)
Definition rmtree (path : string) : M unit :=
  fun w =>
    match fs w !! path with
    | Some Dir =>
        (Ok tt, set_fs (filter (fun kv => ~ inside (os E) path kv.1) (fs w)) w)
    | _ => (Raise (OSError path), w)
    end.

(** *** Decoders *)

(** A decoder returns [None] for an image it does not support and raises
    for one it supports and cannot read. *)
Definition _Decoder : Type := string -> M (option ndarray).

Definition get_ext (path : string) : string :=
  lower (split_file_path_ext (os E) path).

Definition dquote : string := String (ascii_of_nat 34) "".

Definition corrupt_msg (path : string) : string :=
  "Error reading image image from path " +:+ dquote +:+ path +:+ dquote
    +:+ ". Image may be corrupt.".

Definition _read_cv : _Decoder := fun path =>
  if negb (bool_decide (get_ext path ∈ get_opencv_formats E)) then
    (* not supported *)
    ret None
  else
    img <- try_except
             (buf <- np_fromfile path ;; lift (cv2_imdecode E buf))
             (fun cv_err =>
                logger_warning ("Error loading image, trying with imdecode: "
                                  +:+ exn_str cv_err) ;;
                ret None) ;;
    img <- match img with
           | None =>
               try_except (read_fs (cv2_imread E path))
                 (fun e => raise (RuntimeErrorFrom (corrupt_msg path) e))
           | Some _ => ret img
           end ;;
    match img with
    | None => raise (RuntimeError (corrupt_msg path))
    | Some _ => ret img
    end.

(** The channel normalisation of [_read_pil], lines 77 to 81. *)
Definition to_bgr (img : ndarray) : ndarray :=
  let '(_, _, c) := get_h_w_c img in
  if (c =? 3)%nat then cvtColor img COLOR_RGB2BGR
  else if (c =? 4)%nat then cvtColor img COLOR_RGBA2BGRA
  else img.

Definition _read_pil : _Decoder := fun path =>
  if negb (bool_decide (get_ext path ∈ get_pil_formats E)) then
    (* not supported *)
    ret None
  else
    img <- read_fs (PIL_open_array E path) ;;
    ret (Some (to_bgr img)).

Definition _read_dds : _Decoder := fun path =>
  if negb (String.eqb (get_ext path) ".dds") then
    (* not supported *)
    ret None
  else if negb (String.eqb (platform_system (os E)) "Windows") then
    (* texconv is only supported on Windows. *)
    ret None
  else
    png <- dds_to_png_texconv E path ;;
    try_finally (_read_cv png) (os_remove png).

(** The first argument of [_for_ext]: one extension or several. *)
Inductive ext_arg : Type :=
| ExtStr (ext : string)
| ExtIter (exts : list string).

Definition _for_ext (ext : ext_arg) (decoder : _Decoder) : _Decoder :=
  let ext_set : gset string :=
    match ext with
    | ExtStr e => {[ e ]}
    | ExtIter es => list_to_set es
    end in
  fun path =>
    if bool_decide (get_ext path ∈ ext_set) then decoder path else ret None.

Definition _decoders : list (string * _Decoder) :=
  [ ("pil-jpeg", _for_ext (ExtIter [".jpg"; ".jpeg"]) _read_pil);
    ("cv", _read_cv);
    ("texconv-dds", _read_dds);
    ("pil", _read_pil) ].

(** *** The node *)

(** The [for] loop of lines 201 to 209: one decoder after the other until
    [img] is set; an exception is kept in [error] and logged. *)
Definition decode_step (name : string) (decoder : _Decoder) (path : string)
    (img : option ndarray) (error : option exn)
  : M (option ndarray * option exn) :=
  try_except
    (v <- decoder path ;; ret (v, error))
    (fun e =>
       logger_warning ("Decoder " +:+ name +:+ " failed") ;;
       ret (img, Some e)).

Fixpoint decode_loop (decoders : list (string * _Decoder)) (path : string)
    (img : option ndarray) (error : option exn)
  : M (option ndarray * option exn) :=
  match decoders with
  | [] => ret (img, error)
  | (name, decoder) :: rest =>
      st <- decode_step name decoder path img error ;;
      match fst st with
      | Some _ => ret st (* break *)
      | None => decode_loop rest path (fst st) (snd st)
      end
  end.

Definition unreadable_msg (path : string) : string :=
  "The image " +:+ dquote +:+ path +:+ dquote
    +:+ " you are trying to read cannot be read by chaiNNer.".

(** Lines 180 to 192: in archive mode the member is extracted into a fresh
    temporary directory and the path is rebound to the extracted file.
    The first component is the temporary directory when [compressed] is
    set. *)
Definition stage (_path unit : string) (texture : TEXTURE)
  : M (option string * string) :=
  let filename := unit +:+ "_" +:+ TEXTURE_name texture in
  match resolve _path unit texture with
  | Archived path member =>
      tempdir <- mkdtemp "chaiNNerSCD-" ;;
      z <- ZipFile path ;;
      _ <- ZipFile_extract z member tempdir ;;
      ret (Some tempdir,
           tempdir +:+ "\units\" +:+ unit +:+ "\" +:+ filename +:+ ".dds")
  | Direct path => ret (None, path)
  end.

(** Lines 211 to 213. *)
Definition cleanup (compressed : option string) : M unit :=
  match compressed with
  | Some tempdir =>
      logger_warning ("rmving: " +:+ tempdir) ;;
      rmtree tempdir
  | None => ret tt
  end.

Definition load_image_node (_path unit : string) (texture : TEXTURE)
    (target : string)
  : M (ndarray * string * string * string * string) :=
  let filename := unit +:+ "_" +:+ TEXTURE_name texture in
  staged <- stage _path unit texture ;;
  let compressed := fst staged in
  let path := snd staged in
  logger_debug ("Reading image from path: " +:+ path) ;;
  st <- decode_loop _decoders path None None ;;
  let img := fst st in
  let error := snd st in
  cleanup compressed ;;
  match img with
  | None =>
      match error with
      | Some e => raise e
      | None => raise (RuntimeError (unreadable_msg path))
      end
  | Some img => ret (img, _path, unit, filename, target)
  end.

(** *** The run of the chain, decoder by decoder *)

(** The world once the loop has logged that a decoder failed. *)
Definition warn_failed (name : string) (w : World) : World :=
  {| fs := fs w;
     log := log w ++ [(WARNING, "Decoder " +:+ name +:+ " failed")] |}.

(** What each decoder of the list answers on [path], in the order of the
    calls and in the world the loop calls it in: the list ends with the
    first image. *)
Fixpoint chain_outcomes (decoders : list (string * _Decoder)) (path : string)
    (w : World) : list (string * Result (option ndarray)) :=
  match decoders with
  | [] => []
  | (name, decoder) :: rest =>
      match decoder path w with
      | (Ok (Some img), _) => [(name, Ok (Some img))]
      | (Ok None, w') => (name, Ok None) :: chain_outcomes rest path w'
      | (Raise e, w') =>
          (name, Raise e) :: chain_outcomes rest path (warn_failed name w')
      end
  end.

End Program.

(** A decoder's answer that is no image: not applicable, or failed. *)
Definition no_raster (o : string * Result (option ndarray)) : Prop :=
  match snd o with
  | Ok (Some _) => False
  | _ => True
  end.

(** The error of the last failure in a run, if any decoder failed. *)
Fixpoint last_failure (outcomes : list (string * Result (option ndarray)))
  : option exn :=
  match outcomes with
  | [] => None
  | (_, r) :: rest =>
      match last_failure rest with
      | Some e => Some e
      | None => match r with Raise e => Some e | Ok _ => None end
      end
  end.

(** ** A concrete environment

    A Windows machine with toy codecs, for running the node: a file of three
    bytes decodes to one pixel of three channels, texconv writes its PNG next
    to the input, and the only zip file is the two bytes [PK], holding the
    Albedo texture of unit UEB0301. *)

Module Scenario.

Definition pixel_of (b : list Byte.byte) : option ndarray :=
  match b with
  | [x; y; z] =>
      Some {| height := 1; width := 1; channels := Some 3;
              data := map (fun c => Z.of_N (Byte.to_N c)) [x; y; z] |}
  | _ => None
  end.

Definition imread (path : string) (f : gmap string node) : Result (option ndarray) :=
  match f !! path with
  | Some (File b) => Ok (pixel_of b)
  | _ => Ok None
  end.

Definition pil_open (path : string) (f : gmap string node) : Result ndarray :=
  match f !! path with
  | Some (File b) =>
      match pixel_of b with
      | Some img => Ok img
      | None => Raise (ForeignError "PIL" "cannot identify image file")
      end
  | _ => Raise (OSError path)
  end.

Definition texconv (path : string) : M string :=
  fun w =>
    match fs w !! path with
    | Some (File b) =>
        (Ok (path +:+ ".png"), set_fs (<[path +:+ ".png" := File b]> (fs w)) w)
    | _ => (Raise (ForeignError "texconv" "Unable to convert DDS"), w)
    end.

Definition unzip (b : list Byte.byte) : option (gmap string (list Byte.byte)) :=
  match b with
  | [Byte.x50; Byte.x4b] =>
      Some {[ "units/UEB0301/UEB0301_Albedo.dds" := [Byte.x0a; Byte.x14; Byte.x1e] ]}
  | _ => None
  end.

Definition env : Env :=
  {| os := Windows;
     get_opencv_formats := [".bmp"; ".jpg"; ".jpeg"; ".png"; ".tif"; ".tiff"; ".webp"];
     get_pil_formats := [".bmp"; ".dds"; ".gif"; ".jpg"; ".jpeg"; ".png"; ".tga"];
     cv2_imdecode := fun b => Ok (pixel_of b);
     cv2_imread := imread;
     PIL_open_array := pil_open;
     dds_to_png_texconv := texconv;
     TMP_MAX := 100 * 100;
     mkdtemp_candidate := fun prefix seq =>
       "C:\Temp\" +:+ prefix +:+ nth seq ["k3x9wq1z"; "b7d0m2ca"] "v5y8n1rt";
     zip_entries := unzip |}.

(** The same machine under Linux, where texconv is not available. *)
Definition env_linux : Env :=
  {| os := Posix "Linux";
     get_opencv_formats := get_opencv_formats env;
     get_pil_formats := get_pil_formats env;
     cv2_imdecode := cv2_imdecode env;
     cv2_imread := cv2_imread env;
     PIL_open_array := PIL_open_array env;
     dds_to_png_texconv := dds_to_png_texconv env;
     TMP_MAX := 100 * 100;
     mkdtemp_candidate := fun prefix seq =>
       "/tmp/" +:+ prefix +:+ nth seq ["k3x9wq1z"; "b7d0m2ca"] "v5y8n1rt";
     zip_entries := zip_entries env |}.

(** Scenario A and C: the archive. *)
Definition world_archive : World :=
  {| fs := {[ "C:\tex\units.scd" := File [Byte.x50; Byte.x4b] ]}; log := [] |}.


(** Scenario B: a directory of textures. *)
Definition world_direct : World :=
  {| fs := {[ "C:\tex\units\UEB0301\UEB0301_normalsTS.dds"
              := File [Byte.x01; Byte.x02; Byte.x03] ]};
     log := [] |}.

(** A photograph, for the JPEG decoder. *)
Definition world_jpeg : World :=
  {| fs := {[ "C:\img\photo.JPG" := File [Byte.x01; Byte.x02; Byte.x03] ]};
     log := [] |}.

Definition tempdir : string := "C:\Temp\chaiNNerSCD-k3x9wq1z".

Definition texture_file : string := "C:\tex\units\UEB0301\UEB0301_normalsTS.dds".

Definition staged_file : string :=
  "C:\Temp\chaiNNerSCD-k3x9wq1z\units\UEB0301\UEB0301_Albedo.dds".

Definition pixel (a b c : Z) : ndarray :=
  {| height := 1; width := 1; channels := Some 3; data := [a; b; c] |}.

End Scenario.

(** ** The other node of the sources

    [directory_node] of [utility/value/directory_from_str.py] hands its
    input on. *)

Definition directory_node (directory : string) : string := directory.

(** ** Environments that differ in one collaborator *)

Definition with_texconv (E : Env) (texconv : string -> M string) : Env :=
  {| os := os E;
     get_opencv_formats := get_opencv_formats E;
     get_pil_formats := get_pil_formats E;
     cv2_imdecode := cv2_imdecode E;
     cv2_imread := cv2_imread E;
     PIL_open_array := PIL_open_array E;
     dds_to_png_texconv := texconv;
     TMP_MAX := TMP_MAX E;
     mkdtemp_candidate := mkdtemp_candidate E;
     zip_entries := zip_entries E |}.

Definition with_imread (E : Env)
    (imread : string -> gmap string node -> Result (option ndarray)) : Env :=
  {| os := os E;
     get_opencv_formats := get_opencv_formats E;
     get_pil_formats := get_pil_formats E;
     cv2_imdecode := cv2_imdecode E;
     cv2_imread := imread;
     PIL_open_array := PIL_open_array E;
     dds_to_png_texconv := dds_to_png_texconv E;
     TMP_MAX := TMP_MAX E;
     mkdtemp_candidate := mkdtemp_candidate E;
     zip_entries := zip_entries E |}.

(** The extensions a call of [_for_ext] names. *)
Definition ext_list (ext : ext_arg) : list string :=
  match ext with
  | ExtStr e => [e]
  | ExtIter es => es
  end.

(** ** More files for the concrete environment *)

Module Files.

(** Two pictures OpenCV is asked for: one of three bytes, which the toy
    codec decodes, and one of two bytes, which it cannot. *)
Definition world_png : World :=
  {| fs := {[ "C:\img\good.png" := File [Byte.x07; Byte.x08; Byte.x09];
              "C:\img\bad.png" := File [Byte.x07; Byte.x08] ]};
     log := [] |}.

(** A texture of two bytes, which texconv converts and OpenCV cannot
    decode. *)
Definition world_bad_texture : World :=
  {| fs := {[ "C:\tex\units\UEB0301\UEB0301_normalsTS.dds"
              := File [Byte.x01; Byte.x02] ]};
     log := [] |}.

(** A Linux machine whose PIL does not read [.dds]. *)
Definition env_no_dds : Env :=
  {| os := Posix "Linux";
     get_opencv_formats := get_opencv_formats Scenario.env;
     get_pil_formats := [".bmp"; ".gif"; ".jpg"; ".jpeg"; ".png"];
     cv2_imdecode := cv2_imdecode Scenario.env;
     cv2_imread := cv2_imread Scenario.env;
     PIL_open_array := PIL_open_array Scenario.env;
     dds_to_png_texconv := dds_to_png_texconv Scenario.env;
     TMP_MAX := TMP_MAX Scenario.env_linux;
     mkdtemp_candidate := mkdtemp_candidate Scenario.env_linux;
     zip_entries := zip_entries Scenario.env |}.

(** A texconv that is not installed. *)
Definition no_texconv (path : string) : M string :=
  raise (OSError "texconv").

(** An [imread] that always fails. *)
Definition imread_broken (path : string) (f : gmap string node)
  : Result (option ndarray) :=
  Raise (ForeignError "cv2" "imread failed").

End Files.

(** * Properties *)

(** ** Strings *)

Section StringFacts.

Lemma app_cons (c : ascii) (s t : string) :
  String c s +:+ t = String c (s +:+ t).
Proof. reflexivity. Qed.

Lemma app_nil_l (t : string) : "" +:+ t = t.
Proof. reflexivity. Qed.

Lemma app_assoc_str (s t u : string) : (s +:+ t) +:+ u = s +:+ (t +:+ u).
Proof.
  induction s as [|c s IH]; [reflexivity|].
  rewrite !app_cons. now rewrite IH.
Qed.

Lemma length_app_str (s t : string) :
  String.length (s +:+ t) = String.length s + String.length t.
Proof.
  induction s as [|c s IH]; [reflexivity|].
  rewrite app_cons. simpl. now rewrite IH.
Qed.

Lemma substring_all (s : string) : substring 0 (String.length s) s = s.
Proof. induction s as [|c s IH]; simpl; [reflexivity|now rewrite IH]. Qed.

Lemma substring_app_l (s t : string) :
  substring 0 (String.length s) (s +:+ t) = s.
Proof.
  induction s as [|c s IH].
  - rewrite app_nil_l. now destruct t.
  - rewrite app_cons. simpl. now rewrite IH.
Qed.

Lemma substring_app_r (s t : string) (m : nat) :
  substring (String.length s) m (s +:+ t) = substring 0 m t.
Proof.
  induction s as [|c s IH]; [reflexivity|].
  rewrite app_cons. simpl. apply IH.
Qed.

Lemma substring_split (s : string) (k : nat) :
  k <= String.length s ->
  s = substring 0 k s +:+ substring k (String.length s - k) s.
Proof.
  revert k. induction s as [|c s IH]; intros k Hk.
  - simpl in Hk. assert (k = 0) as -> by lia. reflexivity.
  - destruct k as [|k].
    + simpl. rewrite app_nil_l. now rewrite substring_all.
    + simpl in *. rewrite app_cons. f_equal. apply IH. lia.
Qed.

Lemma endswith_app (s t : string) : endswith (s +:+ t) t = true.
Proof.
  unfold endswith, slice. rewrite length_app_str.
  destruct (Nat.leb_spec (String.length t) (String.length s + String.length t)); [|lia].
  replace (String.length s + String.length t - String.length t) with (String.length s) by lia.
  replace (String.length s + String.length t - String.length s) with (String.length t) by lia.
  rewrite substring_app_r, substring_all. apply String.eqb_refl.
Qed.

Lemma endswith_inv (s t : string) :
  endswith s t = true -> exists r, s = r +:+ t.
Proof.
  unfold endswith, slice.
  destruct (Nat.leb_spec (String.length t) (String.length s)) as [Hle|]; [|discriminate].
  remember (String.length s - String.length t) as k eqn:Hk.
  intros Heq%String.eqb_eq.
  exists (substring 0 k s).
  pose proof (substring_split s k ltac:(lia)) as Hs.
  now rewrite Heq in Hs.
Qed.

Lemma removesuffix_app (s t : string) :
  t <> "" -> removesuffix (s +:+ t) t = s.
Proof.
  intros Ht. unfold removesuffix, slice.
  apply String.eqb_neq in Ht. rewrite Ht, endswith_app. simpl.
  rewrite length_app_str.
  replace (String.length s + String.length t - String.length t - 0)
    with (String.length s) by lia.
  apply substring_app_l.
Qed.

Lemma removesuffix_other (s t : string) :
  endswith s t = false -> removesuffix s t = s.
Proof. intros H. unfold removesuffix. rewrite H. now rewrite andb_false_r. Qed.

Lemma last_char_app (s : string) (c : ascii) (t : string) :
  last_char (s +:+ String c t) = last_char (String c t).
Proof.
  induction s as [|a s IH]; [reflexivity|].
  rewrite app_cons.
  change (last_char (String a (s +:+ String c t)))
    with (match s +:+ String c t with
          | EmptyString => Some a
          | _ => last_char (s +:+ String c t)
          end).
  destruct (s +:+ String c t) eqn:Hs.
  - destruct s; discriminate.
  - exact IH.
Qed.

Lemma endswith_last_char (s : string) (c : ascii) (t : string) :
  endswith s (String c t) = true -> last_char s = last_char (String c t).
Proof.
  intros [r ->]%endswith_inv. apply last_char_app.
Qed.

Lemma substring_app_skip (s t : string) (k m : nat) :
  substring (String.length s + k) m (s +:+ t) = substring k m t.
Proof.
  induction s as [|c s IH]; [reflexivity|].
  rewrite app_cons. simpl. apply IH.
Qed.

Lemma substring_app_mid (s t : string) (c : ascii) (a n : nat) :
  a <= String.length s ->
  String.length s - a < n ->
  substring a n (s +:+ String c t)
  = substring a (String.length s - a) s
      +:+ String c (substring 0 (n - (String.length s - a) - 1) t).
Proof.
  revert a n. induction s as [|x s IH]; intros a n Ha Hn.
  - simpl in Ha. assert (a = 0) as -> by lia.
    destruct n as [|n]; [simpl in Hn; lia|].
    rewrite !app_nil_l. simpl. now rewrite Nat.sub_0_r.
  - rewrite app_cons. destruct a as [|a].
    + destruct n as [|n]; [lia|].
      simpl. rewrite app_cons. f_equal.
      rewrite (IH 0 n) by (simpl in *; lia).
      now rewrite Nat.sub_0_r.
    + simpl. apply IH; simpl in *; lia.
Qed.

Lemma all_dots_app_other (s t : string) (c : ascii) :
  is_dot c = false -> all_dots (s +:+ String c t) = false.
Proof.
  intros Hc. induction s as [|x s IH].
  - rewrite app_nil_l. simpl. now rewrite Hc.
  - rewrite app_cons. simpl. rewrite IH. apply andb_false_r.
Qed.

(** [rfind] finds nothing at every offset, or the same place at every
    offset. *)
Lemma rfind_from_offset (P : ascii -> bool) (s : string) (offset : Z) :
  (0 <= offset)%Z ->
  (rfind P s = -1 /\ rfind_from P s offset = -1)%Z
  \/ (0 <= rfind P s < Z.of_nat (String.length s)
      /\ rfind_from P s offset = offset + rfind P s)%Z.
Proof.
  unfold rfind. revert offset.
  induction s as [|c s IH]; intros offset Hoff; [now left|].
  cbn [rfind_from String.length].
  destruct (IH (offset + 1)%Z ltac:(lia)) as [[H0 H1]|[H0 H1]];
    destruct (IH (0 + 1)%Z ltac:(lia)) as [[H0' H2]|[H0' H2]];
    try (exfalso; lia); rewrite H1, H2.
  - cbn [Z.leb Z.compare]. destruct (P c); [right|left]; lia.
  - destruct (Z.leb_spec 0 (offset + 1 + rfind_from P s 0));
      destruct (Z.leb_spec 0 (0 + 1 + rfind_from P s 0)); lia.
Qed.

Lemma rfind_from_app (P : ascii -> bool) (s t : string) (offset : Z) :
  (0 <= offset)%Z ->
  rfind_from P (s +:+ t) offset
  = if (0 <=? rfind P t)%Z
    then (offset + Z.of_nat (String.length s) + rfind P t)%Z
    else rfind_from P s offset.
Proof.
  revert offset. induction s as [|c s IH]; intros offset Hoff.
  - rewrite app_nil_l. cbn [String.length rfind_from].
    destruct (rfind_from_offset P t offset Hoff) as [[H0 H1]|[H0 H1]];
      rewrite H1.
    + now rewrite H0.
    + destruct (Z.leb_spec 0 (rfind P t)); lia.
  - rewrite app_cons. cbn [rfind_from String.length].
    rewrite IH by lia.
    destruct (Z.leb_spec 0 (rfind P t)) as [Ht|Ht]; [|reflexivity].
    destruct (Z.leb_spec 0 (offset + 1 + Z.of_nat (String.length s) + rfind P t));
      lia.
Qed.

(** The extension of a path that ends in a file name [t] with a dot after
    a first character that is none. *)
Lemma splitext_file_name (o : OS) (s t : string) (c : ascii) (t' : string)
    (d : nat) :
  t = String c t' ->
  is_dot c = false ->
  rfind (is_sep o) t = (-1)%Z ->
  rfind is_dot t = Z.of_nat d ->
  snd (splitext o (s +:+ t)) = substring d (String.length t - d) t.
Proof.
  intros -> Hc Hsep Hdot.
  assert (Hd : 0 < d).
  { destruct d; [|lia]. exfalso. unfold rfind in Hdot.
    cbn [rfind_from] in Hdot. rewrite Hc in Hdot.
    destruct (rfind_from_offset is_dot t' (0 + 1) ltac:(lia)) as [[_ H]|[H0 H]];
      rewrite H in Hdot.
    - discriminate.
    - destruct (Z.leb_spec 0 (0 + 1 + rfind is_dot t')); lia. }
  assert (Hsi : rfind (is_sep o) (s +:+ String c t') = rfind (is_sep o) s).
  { unfold rfind at 1. rewrite rfind_from_app by lia. now rewrite Hsep. }
  assert (Hdi : rfind is_dot (s +:+ String c t')
                = Z.of_nat (String.length s + d)).
  { unfold rfind at 1. rewrite rfind_from_app by lia. rewrite Hdot.
    destruct (Z.leb_spec 0 (Z.of_nat d)); lia. }
  assert (Hlt : (rfind (is_sep o) s < Z.of_nat (String.length s))%Z).
  { destruct (rfind_from_offset (is_sep o) s 0 ltac:(lia)) as [[Hs _]|[Hs _]];
      lia. }
  assert (Hge : (-1 <= rfind (is_sep o) s)%Z).
  { destruct (rfind_from_offset (is_sep o) s 0 ltac:(lia)) as [[Hs _]|[Hs _]];
      lia. }
  unfold splitext. rewrite Hsi, Hdi.
  destruct (Z.ltb_spec (rfind (is_sep o) s) (Z.of_nat (String.length s + d)));
    [|lia].
  unfold slice. rewrite Nat2Z.id.
  rewrite (substring_app_mid s t' c (Z.to_nat (rfind (is_sep o) s + 1))
             (String.length s + d - Z.to_nat (rfind (is_sep o) s + 1)))
    by lia.
  rewrite all_dots_app_other by exact Hc.
  cbn [snd]. rewrite length_app_str, substring_app_skip.
  f_equal. lia.
Qed.

End StringFacts.

Example splitext_ex1 : splitext Windows "C:\a.b\UEB0301_Albedo.DDS" = ("C:\a.b\UEB0301_Albedo", ".DDS").
Proof. reflexivity. Qed.

Example splitext_ex2 : splitext Windows "C:\a.b\...dds" = ("C:\a.b\...dds", "").
Proof. reflexivity. Qed.

Example splitext_ex3 : splitext (Posix "Linux") "C:\a.b\c" = ("C:\a", ".b\c").
Proof. reflexivity. Qed.

Example py_repr_ex1 :
  py_repr "units/UEB0302/UEB0302_Albedo.dds" = "'units/UEB0302/UEB0302_Albedo.dds'".
Proof. reflexivity. Qed.

Example py_repr_ex2 :
  py_repr "units/a'b/a'b_Albedo.dds"
  = String dquote_char "units/a'b/a'b_Albedo.dds" +:+ String dquote_char "".
Proof. reflexivity. Qed.

Example py_repr_ex3 : py_repr "a\b" = "'a\\b'".
Proof. reflexivity. Qed.

Example arcname_of_ex1 :
  arcname_of Windows "units/UEB0301/UEB0301_Albedo.dds"
  = "units\UEB0301\UEB0301_Albedo.dds".
Proof. reflexivity. Qed.

Example arcname_of_ex2 :
  arcname_of Windows "units/UEB:0301/UEB:0301_Albedo.dds"
  = "units\UEB_0301\UEB_0301_Albedo.dds".
Proof. reflexivity. Qed.

Example arcname_of_ex3 :
  arcname_of Windows "units/../../x./y_Albedo.dds" = "units\x\y_Albedo.dds".
Proof. reflexivity. Qed.

Example arcname_of_ex4 :
  arcname_of (Posix "Linux") "units/./a\b:c/../x.dds" = "units/a\b:c/x.dds".
Proof. reflexivity. Qed.

(** ** Path resolution *)

Lemma TEXTURE_name_suffix (kind : TEXTURE) : TEXTURE_name kind = spec_suffix kind.
Proof. now destruct kind. Qed.

Lemma backslash_not_archive (A : string) : endswith (A +:+ "\") "units.scd" = false.
Proof.
  destruct (endswith (A +:+ "\") "units.scd") eqn:H; [|reflexivity].
  apply endswith_last_char in H. rewrite last_char_app in H. discriminate.
Qed.

Lemma resolve_strips_one (A U : string) (kind : TEXTURE) :
  resolve (A +:+ "\") U kind
  = Direct (A +:+ "\" +:+ U +:+ "\" +:+ U +:+ "_" +:+ spec_suffix kind +:+ ".dds").
Proof.
  unfold resolve. rewrite backslash_not_archive, removesuffix_app by discriminate.
  now rewrite TEXTURE_name_suffix, !app_assoc_str.
Qed.

Lemma resolve_no_trailing (R U : string) (kind : TEXTURE) :
  endswith R "units.scd" = false ->
  endswith R "\" = false ->
  resolve R U kind
  = Direct (R +:+ "\" +:+ U +:+ "\" +:+ U +:+ "_" +:+ spec_suffix kind +:+ ".dds").
Proof.
  intros Hscd Hsep. unfold resolve.
  rewrite Hscd, removesuffix_other by exact Hsep.
  now rewrite TEXTURE_name_suffix, !app_assoc_str.
Qed.

Lemma resolve_archive_member (root unit : string) (kind : TEXTURE) :
  endswith root "units.scd" = true ->
  resolve root unit kind
  = Archived root
      ("units/" +:+ unit +:+ "/" +:+ unit +:+ "_" +:+ spec_suffix kind +:+ ".dds").
Proof.
  intros H. unfold resolve. rewrite H.
  now rewrite TEXTURE_name_suffix, !app_assoc_str.
Qed.

(** C4. A root that names the archive (it ends in [units.scd]) resolves, for
    every unit and texture kind, to the archive at the unchanged root and the
    member [units/{unit}/{unit}_{suffix}.dds], the suffix being the one mapped
    to the kind. *)
Theorem resolve_archive (root unit : string) (kind : TEXTURE) :
  endswith root "units.scd" = true ->
  resolve root unit kind
  = Archived root
      ("units/" +:+ unit +:+ "/" +:+ unit +:+ "_" +:+ spec_suffix kind +:+ ".dds").
Proof. apply resolve_archive_member. Qed.

Lemma resolve_archive_witness :
  endswith "C:\tex\units.scd" "units.scd" = true
  /\ resolve "C:\tex\units.scd" "UEB0301" normalsTS
     = Archived "C:\tex\units.scd" "units/UEB0301/UEB0301_normalsTS.dds".
Proof.
  split; [reflexivity|].
  apply (resolve_archive "C:\tex\units.scd" "UEB0301" normalsTS). reflexivity.
Defined.

(** C5. A root that does not name the archive resolves to a direct path:
    the root with one trailing backslash stripped when it has one (whatever
    stands before that backslash is kept as it is, further backslashes
    included), then backslash, unit, backslash, unit, underscore, suffix and
    [.dds]. Nothing else of the root is changed. *)
Theorem resolve_direct (root unit : string) (kind : TEXTURE) :
  endswith root "units.scd" = false ->
  (forall r, root = r +:+ "\" ->
     resolve root unit kind
     = Direct (r +:+ "\" +:+ unit +:+ "\" +:+ unit +:+ "_"
                 +:+ spec_suffix kind +:+ ".dds"))
  /\ (endswith root "\" = false ->
      resolve root unit kind
      = Direct (root +:+ "\" +:+ unit +:+ "\" +:+ unit +:+ "_"
                  +:+ spec_suffix kind +:+ ".dds")).
Proof.
  intros Hscd. split.
  - intros r ->. apply resolve_strips_one.
  - intros Hsep. now apply resolve_no_trailing.
Qed.

Lemma resolve_direct_witness :
  endswith "C:\Tex/Units\\" "units.scd" = false
  /\ resolve "C:\Tex/Units\\" "UEB0301" normalsTS
     = Direct "C:\Tex/Units\\UEB0301\UEB0301_normalsTS.dds".
Proof.
  split; [reflexivity|].
  apply (proj1 (resolve_direct "C:\Tex/Units\\" "UEB0301" normalsTS eq_refl)
           "C:\Tex/Units\").
  reflexivity.
Defined.

(** C6, as the specification states it, fails: of two trailing backslashes
    the code strips one, so the resolved path keeps an empty segment; and a
    backslash after the archive name turns the root into a directory. *)
Lemma resolve_two_trailing_separators :
  resolve "C:\tex\units\\" "U" Albedo = Direct "C:\tex\units\\U\U_Albedo.dds"
  /\ resolve "C:\tex\units\\" "U" Albedo <> Direct "C:\tex\units\U\U_Albedo.dds"
  /\ resolve "C:\tex\units.scd\" "U" Albedo = Direct "C:\tex\units.scd\U\U_Albedo.dds".
Proof. repeat split. discriminate. Qed.

(** C6, amended. One trailing backslash makes no difference: a root [R] that
    ends neither in a backslash nor in the archive name resolves, with and
    without a backslash after it, to [R\U\U_{suffix}.dds]. Of more
    backslashes one is stripped. A root that names the archive resolves to
    the member [units/U/U_{suffix}.dds] whatever stands before the archive
    name, and a root with a backslash after the archive name is a
    directory. *)
Theorem resolve_trailing_separator (kind : TEXTURE) (R U : string) :
  let file := U +:+ "\" +:+ U +:+ "_" +:+ spec_suffix kind +:+ ".dds" in
  (endswith R "units.scd" = false -> endswith R "\" = false ->
   resolve R U kind = Direct (R +:+ "\" +:+ file)
   /\ resolve (R +:+ "\") U kind = Direct (R +:+ "\" +:+ file))
  /\ resolve (R +:+ "\" +:+ "\") U kind = Direct (R +:+ "\" +:+ "\" +:+ file)
  /\ (endswith R "units.scd" = true ->
      resolve R U kind
      = Archived R ("units/" +:+ U +:+ "/" +:+ U +:+ "_" +:+ spec_suffix kind +:+ ".dds")
      /\ resolve (R +:+ "\") U kind = Direct (R +:+ "\" +:+ file)).
Proof.
  cbv zeta. split; [|split].
  - intros Hscd Hsep. split.
    + now apply resolve_no_trailing.
    + apply resolve_strips_one.
  - rewrite <- (app_assoc_str R "\" "\"). rewrite resolve_strips_one.
    now rewrite !app_assoc_str.
  - intros Hscd. split.
    + now apply resolve_archive_member.
    + apply resolve_strips_one.
Qed.

Lemma resolve_trailing_separator_witness :
  resolve "C:\tex\units" "U" SpecTeam = Direct "C:\tex\units\U\U_SpecTeam.dds"
  /\ resolve "C:\tex\units\" "U" SpecTeam = Direct "C:\tex\units\U\U_SpecTeam.dds".
Proof.
  apply (proj1 (resolve_trailing_separator SpecTeam "C:\tex\units" "U"));
    reflexivity.
Defined.


(** ** The decoder chain *)

Section Chain.

Variable E : Env.

Lemma decode_step_run (name : string) (d : _Decoder) (path : string)
    (img : option ndarray) (error : option exn) (w : World) :
  decode_step name d path img error w
  = match d path w with
    | (Ok v, w') => (Ok (v, error), w')
    | (Raise e, w') => (Ok (img, Some e), warn_failed name w')
    end.
Proof.
  unfold decode_step, try_except, bind, ret.
  destruct (d path w) as [[v|e] w']; reflexivity.
Qed.

Lemma decode_loop_cons (name : string) (d : _Decoder)
    (rest : list (string * _Decoder)) (path : string) (error : option exn)
    (w : World) :
  decode_loop ((name, d) :: rest) path None error w
  = match d path w with
    | (Ok (Some img), w') => (Ok (Some img, error), w')
    | (Ok None, w') => decode_loop rest path None error w'
    | (Raise e, w') => decode_loop rest path None (Some e) (warn_failed name w')
    end.
Proof.
  cbn [decode_loop]. unfold bind at 1. rewrite decode_step_run.
  destruct (d path w) as [[[img|]|e] w']; reflexivity.
Qed.

(** The loop catches every exception of a decoder. *)
Lemma decode_loop_never_raises (decoders : list (string * _Decoder))
    (path : string) (img : option ndarray) (error : option exn) (w : World) :
  exists st w', decode_loop decoders path img error w = (Ok st, w').
Proof.
  revert img error w.
  induction decoders as [|[name d] rest IH]; intros img error w.
  - now exists (img, error), w.
  - cbn [decode_loop]. unfold bind. rewrite decode_step_run.
    destruct (d path w) as [[v|e] w']; cbn [fst snd].
    + destruct v; [eauto|apply IH].
    + destruct img; [eauto|apply IH].
Qed.

Lemma decode_loop_app (before after : list (string * _Decoder)) (path : string)
    (error : option exn) (w : World) :
  decode_loop (before ++ after) path None error w
  = match decode_loop before path None error w with
    | (Ok (None, error'), w') => decode_loop after path None error' w'
    | other => other
    end.
Proof.
  revert error w. induction before as [|[name d] before IH]; intros error w.
  - reflexivity.
  - rewrite <- app_comm_cons, !decode_loop_cons.
    destruct (d path w) as [[[img|]|e] w']; [reflexivity|apply IH..].
Qed.

Lemma decode_loop_exhausted (decoders : list (string * _Decoder))
    (path : string) (error : option exn) (w : World) :
  Forall no_raster (chain_outcomes decoders path w) ->
  map fst (chain_outcomes decoders path w) = map fst decoders
  /\ exists w',
      decode_loop decoders path None error w
      = (Ok (None,
             match last_failure (chain_outcomes decoders path w) with
             | Some e => Some e
             | None => error
             end), w').
Proof.
  revert error w. induction decoders as [|[name d] rest IH]; intros error w H.
  - split; [reflexivity|]. now exists w.
  - rewrite decode_loop_cons. cbn [chain_outcomes] in *.
    destruct (d path w) as [[[img|]|e] w'].
    + apply Forall_cons_1 in H as [[] _].
    + apply Forall_cons_1 in H as [_ H].
      destruct (IH error w' H) as [Hn [w2 Hw2]].
      split; [cbn [map fst]; now rewrite Hn|].
      exists w2. rewrite Hw2. cbn [last_failure].
      now destruct (last_failure (chain_outcomes rest path w')).
    + apply Forall_cons_1 in H as [_ H].
      destruct (IH (Some e) _ H) as [Hn [w2 Hw2]].
      split; [cbn [map fst]; now rewrite Hn|].
      exists w2. rewrite Hw2. cbn [last_failure].
      now destruct (last_failure (chain_outcomes rest path _)).
Qed.

Lemma load_image_node_run (_path unit : string) (texture : TEXTURE)
    (target : string) (w w0 : World) (compressed : option string)
    (path : string) :
  stage E _path unit texture w = (Ok (compressed, path), w0) ->
  load_image_node E _path unit texture target w
  = match decode_loop (_decoders E) path None None
            (snd (logger_debug ("Reading image from path: " +:+ path) w0)) with
    | (Ok (img, error), w1) =>
        (cleanup E compressed ;;
         match img with
         | None =>
             match error with
             | Some e => raise e
             | None => raise (RuntimeError (unreadable_msg path))
             end
         | Some img =>
             ret (img, _path, unit, unit +:+ "_" +:+ TEXTURE_name texture, target)
         end) w1
    | (Raise e, w1) => (Raise e, w1)
    end.
Proof.
  intros Hs. unfold load_image_node. unfold bind at 1. rewrite Hs.
  cbn [fst snd]. unfold bind at 1. cbn [logger_debug logger_emit].
  unfold bind at 1.
  destruct (decode_loop _ _ _ _ _) as [[[img error]|e] w1]; reflexivity.
Qed.

End Chain.

(** C3. The chain is the list pil-jpeg, cv, texconv-dds, pil. A decoder that
    answers [None] or raises hands over to the next one; the first decoder
    that returns an image ends the loop with that image, whatever decoders
    come after it, and in the world that decoder left. So an image from the
    JPEG decoder, the first of the chain, is the result of the chain. *)
Theorem decoder_chain_priority (E : Env) :
  _decoders E
  = [ ("pil-jpeg", _for_ext E (ExtIter [".jpg"; ".jpeg"]) (_read_pil E));
      ("cv", _read_cv E);
      ("texconv-dds", _read_dds E);
      ("pil", _read_pil E) ]
  /\ (forall name (d : _Decoder) rest path error w,
        decode_loop ((name, d) :: rest) path None error w
        = match d path w with
          | (Ok (Some img), w') => (Ok (Some img, error), w')
          | (Ok None, w') => decode_loop rest path None error w'
          | (Raise e, w') =>
              decode_loop rest path None (Some e) (warn_failed name w')
          end)
  /\ (forall before name (d : _Decoder) after path error w error1 w1 img w2,
        decode_loop before path None error w = (Ok (None, error1), w1) ->
        d path w1 = (Ok (Some img), w2) ->
        decode_loop (before ++ (name, d) :: after) path None error w
        = (Ok (Some img, error1), w2))
  /\ (forall path w img w',
        _for_ext E (ExtIter [".jpg"; ".jpeg"]) (_read_pil E) path w
        = (Ok (Some img), w') ->
        decode_loop (_decoders E) path None None w = (Ok (Some img, None), w')).
Proof.
  split; [reflexivity|]. split; [|split].
  - intros. apply decode_loop_cons.
  - intros before name d after path error w error1 w1 img w2 Hb Hd.
    now rewrite decode_loop_app, Hb, decode_loop_cons, Hd.
  - intros path w img w' Hd. unfold _decoders.
    now rewrite decode_loop_cons, Hd.
Qed.

(** C2. When every decoder of the chain answers [None] or raises on the
    working path, every decoder has been called, the loop ends without an
    image and with the error of the last failure, and the node, after its
    cleanup, raises that error, or, when no decoder failed, the
    [RuntimeError] whose message is the sentence of line 219 with the
    working path between double quotes (character 034). It returns no
    image. *)
Theorem chain_exhausted (E : Env) (_path unit : string) (texture : TEXTURE)
    (target : string) (w w0 : World) (compressed : option string)
    (path : string) :
  stage E _path unit texture w = (Ok (compressed, path), w0) ->
  let w1 := snd (logger_debug ("Reading image from path: " +:+ path) w0) in
  let outcomes := chain_outcomes (_decoders E) path w1 in
  Forall no_raster outcomes ->
  map fst outcomes = ["pil-jpeg"; "cv"; "texconv-dds"; "pil"]
  /\ exists w2,
      decode_loop (_decoders E) path None None w1
      = (Ok (None, last_failure outcomes), w2)
      /\ load_image_node E _path unit texture target w
         = (cleanup E compressed ;;
            raise (match last_failure outcomes with
                   | Some e => e
                   | None =>
                       RuntimeError
                         ("The image " +:+ String "034"%char "" +:+ path
                            +:+ String "034"%char ""
                            +:+ " you are trying to read cannot be read by chaiNNer.")
                   end)) w2.
Proof.
  intros Hs w1 outcomes Hall.
  destruct (decode_loop_exhausted (_decoders E) path None w1 Hall)
    as [Hn [w2 Hw2]].
  split; [exact Hn|]. exists w2.
  fold outcomes in Hw2.
  assert (Hl : decode_loop (_decoders E) path None None w1
               = (Ok (None, last_failure outcomes), w2)).
  { rewrite Hw2. now destruct (last_failure outcomes). }
  split; [exact Hl|].
  rewrite (load_image_node_run E _ _ _ _ _ _ _ _ Hs).
  fold w1. rewrite Hl.
  now destruct (last_failure outcomes).
Qed.

(** ** The result of the node *)

(** C7. A load that succeeds returns its image with the root path and the
    unit name as the caller gave them, the file name without extension,
    which is the unit name, an underscore and the suffix of the texture kind
    (Albedo, SpecTeam, normalsTS), and the target directory as given. The
    root path returned is the caller's also when the node worked on a file
    staged from the archive. *)
Theorem load_result_tuple (E : Env) (_path unit : string) (texture : TEXTURE)
    (target : string) (w w' : World) (img : ndarray) (a b c d : string) :
  load_image_node E _path unit texture target w = (Ok (img, a, b, c, d), w') ->
  a = _path
  /\ b = unit
  /\ c = unit +:+ "_" +:+ match texture with
                          | Albedo => "Albedo"
                          | SpecTeam => "SpecTeam"
                          | normalsTS => "normalsTS"
                          end
  /\ d = target.
Proof.
  intros H.
  destruct (stage E _path unit texture w) as [[[compressed path]|e] w0] eqn:Hs.
  - rewrite (load_image_node_run E _ _ _ _ _ _ _ _ Hs) in H.
    destruct (decode_loop _ _ _ _ _) as [[[img' error]|e] w1]; [|discriminate].
    unfold bind in H.
    destruct (cleanup E compressed w1) as [[u|e] w2]; [|discriminate].
    destruct img' as [img'|]; [|destruct error; discriminate].
    injection H as <- <- <- <- <- <-.
    repeat split.
  - unfold load_image_node, bind in H. rewrite Hs in H. discriminate.
Qed.

(** ** The temporary directory *)

Section Staging.

Variable E : Env.

(** [mkdtemp] returns a name that did not exist and makes it a directory;
    when it raises it has made nothing. *)
Lemma mkdtemp_run (prefix : string) (w : World) :
  match mkdtemp E prefix w with
  | (Ok d, w') => fs w !! d = None /\ w' = set_fs (<[d := Dir]> (fs w)) w
  | (Raise e, w') => w' = w
  end.
Proof.
  unfold mkdtemp. generalize 0 as seq.
  induction (TMP_MAX E) as [|tries IH]; intros seq; cbn [mkdtemp_from].
  - reflexivity.
  - destruct (fs w !! mkdtemp_candidate E prefix seq) eqn:Hd.
    + apply IH.
    + now split.
Qed.

Lemma rmtree_removes (d : string) (w w' : World) :
  rmtree E d w = (Ok tt, w') -> fs w' !! d = None.
Proof.
  unfold rmtree. destruct (fs w !! d) as [[|]|]; try discriminate.
  intros [= <-]. cbn [fs set_fs].
  apply map_lookup_filter_None. right. intros x _ Hn. apply Hn.
  now left.
Qed.

(** X19. Once the member is staged, the node removes the temporary directory on
    every outcome of the chain: it is gone when the call returns, unless
    [rmtree] itself failed. *)
Lemma load_image_node_cleans_staged (_path unit : string) (texture : TEXTURE)
    (target : string) (w w0 : World) (tempdir path : string) :
  stage E _path unit texture w = (Ok (Some tempdir, path), w0) ->
  fs (snd (load_image_node E _path unit texture target w)) !! tempdir = None
  \/ fst (load_image_node E _path unit texture target w)
     = Raise (OSError tempdir).
Proof.
  intros Hs.
  destruct (load_image_node E _path unit texture target w) as [r w'] eqn:Hl.
  rewrite (load_image_node_run E _ _ _ _ _ _ _ _ Hs) in Hl.
  destruct (decode_loop_never_raises (_decoders E) path None None
              (snd (logger_debug ("Reading image from path: " +:+ path) w0)))
    as ([img error] & w1 & Hst).
  unfold _Decoder in *. rewrite Hst in Hl.
  unfold cleanup, logger_warning, logger_emit, bind in Hl.
  cbn [fst snd].
  destruct (rmtree E tempdir _) as [[[]|e] w2] eqn:Hrm.
  - left. apply rmtree_removes in Hrm.
    destruct img as [img|]; [|destruct error]; inversion Hl; subst; exact Hrm.
  - right. inversion Hl; subst. unfold rmtree in Hrm.
    destruct (fs _ !! tempdir) as [[|]|]; inversion Hrm; reflexivity.
Qed.

(** When the archive has no such member, [extract] raises before the
    cleanup of line 213 is reached: the error leaves the node and the
    directory [mkdtemp] made stays. The same holds for an archive that
    cannot be opened. *)
Lemma load_image_node_member_missing (_path unit : string)
    (texture : TEXTURE) (target : string) (w : World)
    (archive member d : string) (b : list Byte.byte)
    (z : gmap string (list Byte.byte)) :
  resolve _path unit texture = Archived archive member ->
  fst (mkdtemp E "chaiNNerSCD-" w) = Ok d ->
  fs w !! archive = Some (File b) ->
  zip_entries E b = Some z ->
  z !! member = None ->
  load_image_node E _path unit texture target w
  = (Raise (KeyError ("There is no item named " +:+ py_repr member
                        +:+ " in the archive")),
     set_fs (<[d := Dir]> (fs w)) w).
Proof.
  intros Hr Hmk Ha Hz Hm.
  unfold load_image_node, stage. rewrite Hr.
  unfold bind at 1 2. pose proof (mkdtemp_run "chaiNNerSCD-" w) as Hrun.
  destruct (mkdtemp E "chaiNNerSCD-" w) as [[d'|e] w1]; [|discriminate].
  cbn [fst] in Hmk. injection Hmk as ->. destruct Hrun as [Hd ->].
  unfold bind, ZipFile, ZipFile_extract. cbn [fs set_fs].
  assert (d <> archive) as Hne by congruence.
  rewrite lookup_insert_ne by exact Hne.
  now rewrite Ha, Hz, Hm.
Qed.

Lemma read_cv_keeps_fs (path : string) (w : World) :
  fs (snd (_read_cv E path w)) = fs w.
Proof.
  unfold _read_cv.
  destruct (negb (bool_decide (get_ext E path ∈ get_opencv_formats E)));
    [reflexivity|].
  unfold bind, try_except, np_fromfile, lift, read_fs, logger_warning,
    logger_emit, ret, raise.
  destruct (fs w !! path) as [[b|]|];
    [destruct (cv2_imdecode E b) as [[i|]|e]|..];
    cbn [fs]; try reflexivity;
    destruct (cv2_imread E path (fs w)) as [[j|]|e']; reflexivity.
Qed.

End Staging.

(** ** The temporary PNG of the texture decoder *)

(** C9. On a path with extension [.dds] and on Windows the texture decoder
    runs texconv; an error of texconv leaves the decoder as it is.
    Otherwise the decoder runs the OpenCV decoder on the PNG, which leaves
    the files as they are, and then removes the PNG, whether the OpenCV
    decoder returned or raised: its outcome leaves the decoder in a world
    without the PNG. (A path that is no file makes [os.remove] raise.) *)
Theorem read_dds_removes_png (E : Env) (path : string) (w : World) :
  get_ext E path = ".dds" ->
  platform_system (os E) = "Windows" ->
  match dds_to_png_texconv E path w with
  | (Raise e, w1) => _read_dds E path w = (Raise e, w1)
  | (Ok png, w1) =>
      let r := fst (_read_cv E png w1) in
      let w2 := snd (_read_cv E png w1) in
      fs w2 = fs w1
      /\ match fs w1 !! png with
         | Some (File _) =>
             _read_dds E path w = (r, set_fs (delete png (fs w2)) w2)
         | _ => _read_dds E path w = (Raise (OSError png), w2)
         end
      /\ (fs w1 !! png <> Some Dir ->
          fs (snd (_read_dds E path w)) !! png = None)
  end.
Proof.
  intros Hext Hos. unfold _read_dds. rewrite Hext, Hos.
  change (negb (".dds" =? ".dds")%string) with false.
  change (negb ("Windows" =? "Windows")%string) with false.
  cbv iota. unfold bind.
  destruct (dds_to_png_texconv E path w) as [[png|e] w1]; [|reflexivity].
  pose proof (read_cv_keeps_fs E png w1) as Hfs.
  unfold try_finally, os_remove.
  destruct (_read_cv E png w1) as [r w2]. cbn [fst snd] in *.
  rewrite Hfs. split; [reflexivity|].
  destruct (fs w1 !! png) as [[b|]|] eqn:Hpng; cbn [fst snd fs set_fs].
  - split; [reflexivity|]. intros _. apply lookup_delete_eq.
  - split; [reflexivity|]. now intros [].
  - split; [reflexivity|]. intros _. now rewrite Hfs.
Qed.

(** ** Channel order of the PIL decoders *)

Section Channels.

Lemma swap_rb3_length (buf : list Z) : length (swap_rb3 buf) = length buf.
Proof.
  assert (H : forall n (l : list Z), length l <= n ->
                                     length (swap_rb3 l) = length l).
  { induction n as [|n IH]; intros l Hl.
    - destruct l; [reflexivity|simpl in Hl; lia].
    - destruct l as [|r [|g [|b rest]]]; try reflexivity.
      cbn [swap_rb3 length] in *. rewrite IH by lia. reflexivity. }
  now apply (H (length buf)).
Qed.

Lemma swap_rb4_length (buf : list Z) : length (swap_rb4 buf) = length buf.
Proof.
  assert (H : forall n (l : list Z), length l <= n ->
                                     length (swap_rb4 l) = length l).
  { induction n as [|n IH]; intros l Hl.
    - destruct l; [reflexivity|simpl in Hl; lia].
    - destruct l as [|r [|g [|b [|a rest]]]]; try reflexivity.
      cbn [swap_rb4 length] in *. rewrite IH by lia. reflexivity. }
  now apply (H (length buf)).
Qed.

(** Pixel [i] of a three-channel buffer: red and blue change places. *)
Lemma swap_rb3_pixel (buf : list Z) (i : nat) :
  3 * i + 2 < length buf ->
  swap_rb3 buf !! (3 * i) = buf !! (3 * i + 2)
  /\ swap_rb3 buf !! (3 * i + 1) = buf !! (3 * i + 1)
  /\ swap_rb3 buf !! (3 * i + 2) = buf !! (3 * i).
Proof.
  revert buf. induction i as [|i IH]; intros buf Hlen.
  - destruct buf as [|r [|g [|b rest]]]; simpl in Hlen; try lia.
    repeat split.
  - destruct buf as [|r [|g [|b rest]]]; simpl in Hlen; try lia.
    replace (3 * S i) with (S (S (S (3 * i)))) by lia.
    cbn [swap_rb3 Nat.add]. cbn [lookup list_lookup].
    apply IH. lia.
Qed.

(** Pixel [i] of a four-channel buffer: red and blue change places, alpha
    stays. *)
Lemma swap_rb4_pixel (buf : list Z) (i : nat) :
  4 * i + 3 < length buf ->
  swap_rb4 buf !! (4 * i) = buf !! (4 * i + 2)
  /\ swap_rb4 buf !! (4 * i + 1) = buf !! (4 * i + 1)
  /\ swap_rb4 buf !! (4 * i + 2) = buf !! (4 * i)
  /\ swap_rb4 buf !! (4 * i + 3) = buf !! (4 * i + 3).
Proof.
  revert buf. induction i as [|i IH]; intros buf Hlen.
  - destruct buf as [|r [|g [|b [|a rest]]]]; simpl in Hlen; try lia.
    repeat split.
  - destruct buf as [|r [|g [|b [|a rest]]]]; simpl in Hlen; try lia.
    replace (4 * S i) with (S (S (S (S (4 * i))))) by lia.
    cbn [swap_rb4 Nat.add]. cbn [lookup list_lookup].
    apply IH. lia.
Qed.

End Channels.

(** C8. When the path has an extension PIL supports and PIL opens the
    image, [_read_pil] returns it normalised, and so does the JPEG decoder
    on the extensions it is meant for. The normalised image has the shape of
    the original. With three channels every pixel [r, g, b] has become
    [b, g, r]; with four channels every pixel [r, g, b, a] has become
    [b, g, r, a]; with any other channel count, or none, the image is the
    original. *)
Theorem read_pil_channel_order (E : Env) (path : string) (w : World)
    (img : ndarray) :
  get_ext E path ∈ get_pil_formats E ->
  PIL_open_array E path (fs w) = Ok img ->
  let out := to_bgr img in
  _read_pil E path w = (Ok (Some out), w)
  /\ (get_ext E path ∈ [".jpg"; ".jpeg"] ->
      _for_ext E (ExtIter [".jpg"; ".jpeg"]) (_read_pil E) path w
      = (Ok (Some out), w))
  /\ (height out, width out, channels out) = (height img, width img, channels img)
  /\ length (data out) = length (data img)
  /\ (channels img = Some 3 ->
      forall i, 3 * i + 2 < length (data img) ->
        data out !! (3 * i) = data img !! (3 * i + 2)
        /\ data out !! (3 * i + 1) = data img !! (3 * i + 1)
        /\ data out !! (3 * i + 2) = data img !! (3 * i))
  /\ (channels img = Some 4 ->
      forall i, 4 * i + 3 < length (data img) ->
        data out !! (4 * i) = data img !! (4 * i + 2)
        /\ data out !! (4 * i + 1) = data img !! (4 * i + 1)
        /\ data out !! (4 * i + 2) = data img !! (4 * i)
        /\ data out !! (4 * i + 3) = data img !! (4 * i + 3))
  /\ (channels img <> Some 3 -> channels img <> Some 4 -> out = img).
Proof.
  intros Hext Hopen out.
  assert (Hpil : _read_pil E path w = (Ok (Some out), w)).
  { unfold _read_pil. rewrite (bool_decide_eq_true_2 _ Hext). cbn [negb].
    unfold bind, read_fs. now rewrite Hopen. }
  split; [exact Hpil|]. split.
  { intros Hj. unfold _for_ext.
    rewrite bool_decide_eq_true_2; [exact Hpil|].
    now apply elem_of_list_to_set. }
  subst out. unfold to_bgr, get_h_w_c.
  destruct (channels img) as [c|] eqn:Hc.
  - destruct (Nat.eqb_spec c 3) as [->|H3];
      [|destruct (Nat.eqb_spec c 4) as [->|H4]].
    + cbn [cvtColor height width channels data]. rewrite Hc, swap_rb3_length.
      split; [reflexivity|]. split; [reflexivity|].
      split; [intros _ i Hi; now apply swap_rb3_pixel|].
      split; [discriminate|congruence].
    + cbn [cvtColor height width channels data]. rewrite Hc, swap_rb4_length.
      split; [reflexivity|]. split; [reflexivity|].
      split; [discriminate|].
      split; [intros _ i Hi; now apply swap_rb4_pixel|congruence].
    + rewrite Hc. split; [reflexivity|]. split; [reflexivity|].
      split; [congruence|]. split; [congruence|reflexivity].
  - cbn [Nat.eqb]. rewrite Hc. split; [reflexivity|]. split; [reflexivity|].
    split; [discriminate|]. split; [discriminate|reflexivity].
Qed.

(** ** The extension of the working path *)

Section WorkingPath.

Variable E : Env.

Lemma get_ext_texture_file (s : string) (kind : TEXTURE) :
  get_ext E (s +:+ "_" +:+ TEXTURE_name kind +:+ ".dds") = ".dds".
Proof.
  unfold get_ext, split_file_path_ext.
  destruct kind; cbn [TEXTURE_name].
  - rewrite (splitext_file_name (os E) s _ "_" "Albedo.dds" 7);
      try reflexivity. now destruct (os E).
  - rewrite (splitext_file_name (os E) s _ "_" "SpecTeam.dds" 9);
      try reflexivity. now destruct (os E).
  - rewrite (splitext_file_name (os E) s _ "_" "normalsTS.dds" 10);
      try reflexivity. now destruct (os E).
Qed.

(** The two shapes of a staged path. *)
Lemma stage_path (_path unit : string) (texture : TEXTURE) (w w0 : World)
    (compressed : option string) (path : string) :
  stage E _path unit texture w = (Ok (compressed, path), w0) ->
  exists base,
    path = (base +:+ "\" +:+ unit +:+ "\" +:+ unit)
             +:+ "_" +:+ TEXTURE_name texture +:+ ".dds".
Proof.
  unfold stage, resolve.
  destruct (endswith _path "units.scd").
  - unfold bind at 1.
    destruct (mkdtemp E "chaiNNerSCD-" w) as [[d|e] w1]; [|discriminate].
    unfold bind, ZipFile, ZipFile_extract, ret.
    destruct (fs w1 !! _path) as [[b|]|]; try discriminate.
    destruct (zip_entries E b) as [z|]; [|discriminate].
    destruct (z !! _) as [content|]; [|discriminate].
    intros [= <- <- <-].
    exists (d +:+ "\units").
    now rewrite !app_assoc_str.
  - intros [= <- <- <-]. exists (removesuffix _path "\").
    now rewrite !app_assoc_str.
Qed.

End WorkingPath.

(** C10. The path the node hands to the chain ends in [.dds] in both
    modes, and its extension is [.dds]. The JPEG decoder, first of the
    chain, therefore answers [None] on it in every world without touching
    the world, and the chain runs on it exactly as the chain of the three
    other decoders: no image of a load comes from the JPEG decoder. *)
Theorem jpeg_decoder_never_applies (E : Env) (_path unit : string)
    (texture : TEXTURE) (w w0 : World) (compressed : option string)
    (path : string) :
  stage E _path unit texture w = (Ok (compressed, path), w0) ->
  endswith path ".dds" = true
  /\ get_ext E path = ".dds"
  /\ (forall w' : World,
        _for_ext E (ExtIter [".jpg"; ".jpeg"]) (_read_pil E) path w'
        = (Ok None, w'))
  /\ (forall (error : option exn) (w' : World),
        decode_loop (_decoders E) path None error w'
        = decode_loop
            [("cv", _read_cv E); ("texconv-dds", _read_dds E); ("pil", _read_pil E)]
            path None error w').
Proof.
  intros [base ->]%stage_path.
  assert (Hext : get_ext E ((base +:+ "\" +:+ unit +:+ "\" +:+ unit)
                              +:+ "_" +:+ TEXTURE_name texture +:+ ".dds")
                 = ".dds") by apply get_ext_texture_file.
  assert (Hjpeg : forall w' : World,
            _for_ext E (ExtIter [".jpg"; ".jpeg"]) (_read_pil E)
              ((base +:+ "\" +:+ unit +:+ "\" +:+ unit)
                 +:+ "_" +:+ TEXTURE_name texture +:+ ".dds") w'
            = (Ok None, w')).
  { intros w'. unfold _for_ext. rewrite Hext.
    rewrite bool_decide_eq_false_2; [reflexivity|].
    rewrite elem_of_list_to_set. intros Hin.
    repeat (apply elem_of_cons in Hin as [Hin|Hin]; [discriminate|]).
    now apply elem_of_nil in Hin. }
  split; [|split; [exact Hext|split; [exact Hjpeg|]]].
  - rewrite <- !app_assoc_str. apply endswith_app.
  - intros error w'. unfold _decoders. now rewrite decode_loop_cons, Hjpeg.
Qed.

(** ** The scenarios of the specification, run *)

Section Scenarios.

Import Scenario.

Example scenario_A :
  let run := load_image_node env "C:\tex\units.scd" "UEB0301" Albedo "C:\out"
               world_archive in
  fst run = Ok (pixel 10 20 30, "C:\tex\units.scd", "UEB0301", "UEB0301_Albedo",
                "C:\out")
  /\ fs (snd run) !! tempdir = None
  /\ fs (snd run) = fs world_archive.
Proof. vm_compute. repeat split. Qed.

Example scenario_B :
  let run := load_image_node env "C:\tex\units\" "UEB0301" normalsTS ""
               world_direct in
  fst run = Ok (pixel 1 2 3, "C:\tex\units\", "UEB0301", "UEB0301_normalsTS", "")
  /\ fs (snd run) = fs world_direct.
Proof. vm_compute. repeat split. Qed.

(** Without texconv the fallback decoder reads the texture, and exchanges
    red and blue. *)
Example scenario_B_linux :
  fst (load_image_node env_linux "C:\tex\units\" "UEB0301" normalsTS ""
         world_direct)
  = Ok (pixel 3 2 1, "C:\tex\units\", "UEB0301", "UEB0301_normalsTS", "").
Proof. vm_compute. reflexivity. Qed.

Lemma decoder_chain_priority_witness :
  decode_loop (_decoders env) "C:\img\photo.JPG" None None world_jpeg
  = (Ok (Some (pixel 3 2 1), None), world_jpeg)
  /\ fst (decode_loop (_decoders env) texture_file None None world_direct)
     = Ok (Some (pixel 1 2 3), None).
Proof.
  destruct (decoder_chain_priority env) as (_ & _ & Hfirst & Hjpeg).
  split.
  - apply Hjpeg. vm_compute. reflexivity.
  - refine (f_equal fst (Hfirst [ ("pil-jpeg", _for_ext env (ExtIter [".jpg"; ".jpeg"]) (_read_pil env));
                      ("cv", _read_cv env) ]
               "texconv-dds" (_read_dds env) [("pil", _read_pil env)]
               texture_file None world_direct None world_direct (pixel 1 2 3)
               (snd (_read_dds env texture_file world_direct)) _ _)).
    + vm_compute. reflexivity.
    + vm_compute. reflexivity.
Defined.

Lemma chain_exhausted_witness :
  fst (load_image_node env "C:\tex\units\" "UEB0301" Albedo "" world_direct)
  = Raise (OSError "C:\tex\units\UEB0301\UEB0301_Albedo.dds")
  /\ fst (load_image_node Files.env_no_dds "C:\tex\units\" "UEB0301" normalsTS
            "" world_direct)
     = Raise (RuntimeError
                ("The image " +:+ String "034"%char "" +:+ texture_file
                   +:+ String "034"%char ""
                   +:+ " you are trying to read cannot be read by chaiNNer.")).
Proof.
  split.
  - destruct (chain_exhausted env "C:\tex\units\" "UEB0301" Albedo ""
                world_direct world_direct None
                "C:\tex\units\UEB0301\UEB0301_Albedo.dds" eq_refl)
      as [_ [w2 [_ ->]]].
    + vm_compute. repeat constructor.
    + reflexivity.
  - destruct (chain_exhausted Files.env_no_dds "C:\tex\units\" "UEB0301"
                normalsTS "" world_direct world_direct None texture_file eq_refl)
      as [_ [w2 [_ ->]]].
    + vm_compute. repeat constructor.
    + reflexivity.
Defined.

(** C1. The archive of scenario C has no texture for unit UEB0302: the
    load raises the [KeyError] of [extract], and the temporary directory,
    which did not exist before the call, exists after it. *)
Theorem missing_entry_leaves_tempdir :
  let run := load_image_node env "C:\tex\units.scd" "UEB0302" Albedo "C:\out"
               world_archive in
  fs world_archive !! tempdir = None
  /\ fst run
     = Raise (KeyError
                "There is no item named 'units/UEB0302/UEB0302_Albedo.dds' in the archive")
  /\ fs (snd run) !! tempdir = Some Dir.
Proof. vm_compute. repeat split. Qed.

Lemma load_result_tuple_witness :
  fst (load_image_node env "C:\tex\units.scd" "UEB0301" Albedo "C:\out"
         world_archive)
  = Ok (pixel 10 20 30, "C:\tex\units.scd", "UEB0301", "UEB0301_Albedo", "C:\out")
  /\ ("C:\tex\units.scd" = "C:\tex\units.scd"
      /\ "UEB0301" = "UEB0301"
      /\ "UEB0301_Albedo" = "UEB0301" +:+ "_" +:+ "Albedo"
      /\ "C:\out" = "C:\out").
Proof.
  split; [vm_compute; reflexivity|].
  apply (load_result_tuple env "C:\tex\units.scd" "UEB0301" Albedo "C:\out"
           world_archive
           (snd (load_image_node env "C:\tex\units.scd" "UEB0301" Albedo
                   "C:\out" world_archive))
           (pixel 10 20 30)).
  vm_compute. reflexivity.
Defined.

Lemma read_dds_removes_png_witness :
  fst (_read_dds env texture_file world_direct) = Ok (Some (pixel 1 2 3))
  /\ fs (snd (_read_dds env texture_file world_direct))
     !! (texture_file +:+ ".png") = None.
Proof.
  pose proof (read_dds_removes_png env texture_file world_direct
                eq_refl eq_refl) as H.
  vm_compute in H. destruct H as (_ & H & _).
  split.
  - exact (f_equal fst H).
  - vm_compute. reflexivity.
Defined.

Lemma read_pil_channel_order_witness :
  fst (_read_pil env "C:\img\photo.JPG" world_jpeg) = Ok (Some (pixel 3 2 1))
  /\ fst (_for_ext env (ExtIter [".jpg"; ".jpeg"]) (_read_pil env)
            "C:\img\photo.JPG" world_jpeg)
     = Ok (Some (pixel 3 2 1)).
Proof.
  destruct (read_pil_channel_order env "C:\img\photo.JPG" world_jpeg
              (pixel 1 2 3)) as (Hpil & Hjpeg & _).
  - vm_compute. repeat constructor.
  - reflexivity.
  - split; [exact (f_equal fst Hpil)|].
    refine (f_equal fst (Hjpeg _)). vm_compute. repeat constructor.
Defined.

Lemma jpeg_decoder_never_applies_witness :
  fst (stage env "C:\tex\units.scd" "UEB0301" Albedo world_archive)
  = Ok (Some tempdir, staged_file)
  /\ endswith staged_file ".dds" = true
  /\ get_ext env staged_file = ".dds".
Proof.
  split; [vm_compute; reflexivity|].
  destruct (jpeg_decoder_never_applies env "C:\tex\units.scd" "UEB0301" Albedo
              world_archive
              (snd (stage env "C:\tex\units.scd" "UEB0301" Albedo world_archive))
              (Some tempdir) staged_file) as (Hends & Hext & _).
  - vm_compute. reflexivity.
  - now split.
Defined.

End Scenarios.

(** * Further properties of the decoders and of the node *)

(** ** The OpenCV decoder *)

Section ReadCv.

Variable E : Env.

(** What [_read_cv] does on an extension OpenCV lists, after the first
    attempt (lines 49 to 52) has answered [r]. *)
Lemma read_cv_after_first_attempt (path : string) (w : World)
    (r : Result (option ndarray)) :
  get_ext E path ∈ get_opencv_formats E ->
  (buf <- np_fromfile path ;; lift (cv2_imdecode E buf)) w = (r, w) ->
  _read_cv E path w
  = match r with
    | Ok (Some img) => (Ok (Some img), w)
    | _ =>
        let w' := match r with
                  | Raise cv_err =>
                      snd (logger_warning
                             ("Error loading image, trying with imdecode: "
                                +:+ exn_str cv_err) w)
                  | Ok _ => w
                  end in
        (match cv2_imread E path (fs w) with
         | Ok (Some img) => Ok (Some img)
         | Ok None => Raise (RuntimeError (corrupt_msg path))
         | Raise e => Raise (RuntimeErrorFrom (corrupt_msg path) e)
         end, w')
    end.
Proof.
  intros Hext Hfirst. unfold _read_cv.
  rewrite (bool_decide_eq_true_2 _ Hext). cbn [negb].
  unfold bind at 1. unfold try_except at 1. rewrite Hfirst.
  destruct r as [[img|]|cv_err].
  - reflexivity.
  - unfold ret, bind, try_except, read_fs, raise.
    destruct (cv2_imread E path (fs w)) as [[img|]|e]; reflexivity.
  - unfold ret, bind, try_except, read_fs, raise, logger_warning, logger_emit.
    cbn [fs snd].
    destruct (cv2_imread E path (fs w)) as [[img|]|e]; reflexivity.
Qed.

Lemma first_attempt_keeps_world (path : string) (w : World) :
  snd ((buf <- np_fromfile path ;; lift (cv2_imdecode E buf)) w) = w.
Proof.
  unfold bind, np_fromfile, lift.
  destruct (fs w !! path) as [[b|]|]; reflexivity.
Qed.

End ReadCv.

(** X1. [_read_cv] answers [None] exactly for an extension OpenCV does not
    list; on a listed extension it returns an image or raises. *)
Theorem read_cv_not_applicable_iff (E : Env) (path : string) (w : World) :
  fst (_read_cv E path w) = Ok None
  <-> get_ext E path ∉ get_opencv_formats E.
Proof.
  split.
  - intros Hnone Hext.
    pose proof (first_attempt_keeps_world E path w) as Hw.
    destruct ((buf <- np_fromfile path ;; lift (cv2_imdecode E buf)) w)
      as [r w1] eqn:Hfirst.
    cbn [snd] in Hw. subst w1.
    rewrite (read_cv_after_first_attempt E path w r Hext Hfirst) in Hnone.
    destruct r as [[img|]|cv_err]; cbn in Hnone;
      try discriminate;
      destruct (cv2_imread E path (fs w)) as [[img|]|e]; discriminate.
  - intros Hext. unfold _read_cv.
    now rewrite (bool_decide_eq_false_2 _ Hext).
Qed.

(** X2. Every exception [_read_cv] raises is the [RuntimeError] whose
    message is the sentence of lines 59 and 64 with the path between double
    quotes (character 034): plain when [imread] found no image, chained to
    the error of [imread] when [imread] raised. The error of the first
    attempt never leaves the decoder. *)
Theorem read_cv_failure (E : Env) (path : string) (w : World) (e : exn) :
  fst (_read_cv E path w) = Raise e ->
  let msg := "Error reading image image from path " +:+ String "034"%char ""
               +:+ path +:+ String "034"%char "" +:+ ". Image may be corrupt." in
  (cv2_imread E path (fs w) = Ok None
   /\ e = RuntimeError msg)
  \/ (exists cause,
        cv2_imread E path (fs w) = Raise cause
        /\ e = RuntimeErrorFrom msg cause).
Proof.
  intros Hraise msg.
  change msg with (corrupt_msg path). clear msg.
  destruct (decide (get_ext E path ∈ get_opencv_formats E)) as [Hext|Hext].
  - pose proof (first_attempt_keeps_world E path w) as Hw.
    destruct ((buf <- np_fromfile path ;; lift (cv2_imdecode E buf)) w)
      as [r w1] eqn:Hfirst.
    cbn [snd] in Hw. subst w1.
    rewrite (read_cv_after_first_attempt E path w r Hext Hfirst) in Hraise.
    destruct r as [[img|]|cv_err]; cbn in Hraise;
      try discriminate;
      destruct (cv2_imread E path (fs w)) as [[img|]|e'];
      try discriminate; injection Hraise as <-; eauto.
  - unfold _read_cv in Hraise.
    rewrite (bool_decide_eq_false_2 _ Hext) in Hraise. discriminate.
Qed.

(** X3. When the bytes of the file decode, [_read_cv] returns that image,
    leaves the world as it is and does not consult [imread]: the answer is
    the same with any other [imread]. *)
Theorem read_cv_first_attempt_wins (E : Env) (path : string) (w : World)
    (b : list Byte.byte) (img : ndarray) :
  get_ext E path ∈ get_opencv_formats E ->
  fs w !! path = Some (File b) ->
  cv2_imdecode E b = Ok (Some img) ->
  forall imread, _read_cv (with_imread E imread) path w = (Ok (Some img), w).
Proof.
  intros Hext Hfile Hdec imread.
  apply (read_cv_after_first_attempt (with_imread E imread) path w
           (Ok (Some img))).
  - exact Hext.
  - unfold bind, np_fromfile, lift. rewrite Hfile. cbn [cv2_imdecode with_imread].
    now rewrite Hdec.
Qed.

(** X4. When the first attempt gives no image, the answer is that of
    [imread]; a warning is logged exactly when the first attempt raised
    (the file is missing or [imdecode] raised), not when [imdecode]
    answered [None]. Files are never changed. *)
Theorem read_cv_fallback (E : Env) (path : string) (w : World) :
  get_ext E path ∈ get_opencv_formats E ->
  let first := fst ((buf <- np_fromfile path ;; lift (cv2_imdecode E buf)) w) in
  (forall img, first <> Ok (Some img)) ->
  fst (_read_cv E path w)
  = match cv2_imread E path (fs w) with
    | Ok (Some img) => Ok (Some img)
    | Ok None => Raise (RuntimeError (corrupt_msg path))
    | Raise e => Raise (RuntimeErrorFrom (corrupt_msg path) e)
    end
  /\ fs (snd (_read_cv E path w)) = fs w
  /\ log (snd (_read_cv E path w))
     = (log w ++ match first with
                 | Raise cv_err =>
                     [(WARNING, "Error loading image, trying with imdecode: "
                                  +:+ exn_str cv_err)]
                 | Ok _ => []
                 end)%list.
Proof.
  intros Hext first Hno.
  pose proof (first_attempt_keeps_world E path w) as Hw.
  subst first.
  destruct ((buf <- np_fromfile path ;; lift (cv2_imdecode E buf)) w)
    as [r w1] eqn:Hfirst.
  cbn [fst snd] in *. subst w1.
  rewrite (read_cv_after_first_attempt E path w r Hext Hfirst).
  destruct r as [[img|]|cv_err].
  - now destruct (Hno img).
  - cbn [fst snd]. now rewrite app_nil_r.
  - cbn [fst snd logger_warning logger_emit fs log]. auto.
Qed.

(** ** The PIL decoder *)

(** X5. [_read_pil] never changes the world; it answers [None] exactly for
    an extension PIL does not list; and an error of PIL leaves it as PIL
    raised it, without the wrapping of the OpenCV decoder. *)
Theorem read_pil_outcome (E : Env) (path : string) (w : World) :
  snd (_read_pil E path w) = w
  /\ (fst (_read_pil E path w) = Ok None
      <-> get_ext E path ∉ get_pil_formats E)
  /\ (forall e,
        get_ext E path ∈ get_pil_formats E ->
        PIL_open_array E path (fs w) = Raise e ->
        fst (_read_pil E path w) = Raise e).
Proof.
  unfold _read_pil.
  destruct (decide (get_ext E path ∈ get_pil_formats E)) as [Hext|Hext].
  - rewrite (bool_decide_eq_true_2 _ Hext). cbn [negb].
    unfold bind, read_fs, ret.
    destruct (PIL_open_array E path (fs w)) as [img|e]; cbn [fst snd].
    + repeat split; try discriminate; tauto.
    + repeat split; try discriminate; try tauto.
      now intros e0 _ [= ->].
  - rewrite (bool_decide_eq_false_2 _ Hext). cbn [negb ret fst snd].
    repeat split; tauto.
Qed.

Section Involution.

Lemma swap_rb3_involutive (buf : list Z) : swap_rb3 (swap_rb3 buf) = buf.
Proof.
  assert (H : forall n (l : list Z), length l <= n ->
                                     swap_rb3 (swap_rb3 l) = l).
  { induction n as [|n IH]; intros l Hl.
    - destruct l; [reflexivity|simpl in Hl; lia].
    - destruct l as [|r [|g [|b rest]]]; try reflexivity.
      cbn [swap_rb3 length] in *. rewrite IH by lia. reflexivity. }
  now apply (H (length buf)).
Qed.

Lemma swap_rb4_involutive (buf : list Z) : swap_rb4 (swap_rb4 buf) = buf.
Proof.
  assert (H : forall n (l : list Z), length l <= n ->
                                     swap_rb4 (swap_rb4 l) = l).
  { induction n as [|n IH]; intros l Hl.
    - destruct l; [reflexivity|simpl in Hl; lia].
    - destruct l as [|r [|g [|b [|a rest]]]]; try reflexivity.
      cbn [swap_rb4 length] in *. rewrite IH by lia. reflexivity. }
  now apply (H (length buf)).
Qed.

End Involution.

(** X6. The channel normalisation of [_read_pil] is its own inverse:
    normalising twice gives the image PIL read, so no two images of PIL
    normalise to the same raster. *)
Theorem to_bgr_involutive (img : ndarray) :
  to_bgr (to_bgr img) = img
  /\ (forall img', to_bgr img = to_bgr img' -> img = img').
Proof.
  assert (Hinv : forall i, to_bgr (to_bgr i) = i).
  { intros [h wd c d]. unfold to_bgr, get_h_w_c. cbn [height width channels].
    destruct c as [c|]; [|reflexivity].
    destruct (Nat.eqb_spec c 3) as [->|H3];
      [|destruct (Nat.eqb_spec c 4) as [->|H4]].
    - cbn. unfold cvtColor. cbn [height width channels data].
      now rewrite swap_rb3_involutive.
    - cbn. unfold cvtColor. cbn [height width channels data].
      now rewrite swap_rb4_involutive.
    - cbn [channels].
      destruct (Nat.eqb_spec c 3); [contradiction|].
      destruct (Nat.eqb_spec c 4); [contradiction|]. reflexivity. }
  split; [apply Hinv|].
  intros img' Heq. rewrite <- (Hinv img), <- (Hinv img'). now rewrite Heq.
Qed.

(** ** [_for_ext] *)

Lemma for_ext_gate (E : Env) (ext : ext_arg) (d : _Decoder) (path : string)
    (w : World) :
  _for_ext E ext d path w
  = if bool_decide (get_ext E path ∈ ext_list ext) then d path w
    else (Ok None, w).
Proof.
  unfold _for_ext.
  assert (Hiff : get_ext E path ∈ (match ext with
                                   | ExtStr e => {[ e ]}
                                   | ExtIter es => list_to_set es
                                   end : gset string)
                 <-> get_ext E path ∈ ext_list ext).
  { destruct ext as [e|es]; cbn [ext_list].
    - rewrite elem_of_singleton, list_elem_of_singleton. tauto.
    - apply elem_of_list_to_set. }
  destruct (decide (get_ext E path ∈ ext_list ext)) as [Hin|Hin].
  - rewrite (bool_decide_eq_true_2 _ Hin).
    rewrite bool_decide_eq_true_2; [reflexivity|]. now apply Hiff.
  - rewrite (bool_decide_eq_false_2 _ Hin).
    rewrite bool_decide_eq_false_2; [reflexivity|]. now rewrite Hiff.
Qed.

(** X7. [_for_ext] depends on its extensions as a set: one extension given
    as a string or as a list of one, or two lists with the same elements in
    any order and number, give the same decoder; the decoder is asked on
    the paths whose extension is among them and answers [None], leaving the
    world alone, on all others. *)
Theorem for_ext_set_semantics (E : Env) (ext1 ext2 : ext_arg) (d : _Decoder)
    (path : string) (w : World) :
  (forall x, x ∈ ext_list ext1 <-> x ∈ ext_list ext2) ->
  _for_ext E ext1 d path w = _for_ext E ext2 d path w
  /\ (get_ext E path ∈ ext_list ext1 -> _for_ext E ext1 d path w = d path w)
  /\ (get_ext E path ∉ ext_list ext1 -> _for_ext E ext1 d path w = (Ok None, w)).
Proof.
  intros Hsame. rewrite !for_ext_gate.
  split; [|split].
  - destruct (decide (get_ext E path ∈ ext_list ext1)) as [Hin|Hin].
    + rewrite (bool_decide_eq_true_2 _ Hin).
      apply Hsame in Hin. now rewrite (bool_decide_eq_true_2 _ Hin).
    + rewrite (bool_decide_eq_false_2 _ Hin).
      rewrite bool_decide_eq_false_2; [reflexivity|]. now rewrite <- Hsame.
  - intros Hin. now rewrite (bool_decide_eq_true_2 _ Hin).
  - intros Hin. now rewrite (bool_decide_eq_false_2 _ Hin).
Qed.

(** ** Letter case of the extension *)

Section LetterCase.

Lemma lower_ascii_idem (c : ascii) : lower_ascii (lower_ascii c) = lower_ascii c.
Proof. destruct c as [[] [] [] [] [] [] [] []]; reflexivity. Qed.

Lemma lower_idem (s : string) : lower (lower s) = lower s.
Proof.
  induction s as [|c s IH]; [reflexivity|].
  cbn [lower]. now rewrite lower_ascii_idem, IH.
Qed.

Lemma is_dot_lower (c : ascii) : is_dot (lower_ascii c) = is_dot c.
Proof. destruct c as [[] [] [] [] [] [] [] []]; reflexivity. Qed.

Lemma is_sep_lower (o : OS) (c : ascii) : is_sep o (lower_ascii c) = is_sep o c.
Proof. destruct o; destruct c as [[] [] [] [] [] [] [] []]; reflexivity. Qed.

Lemma length_lower (s : string) : String.length (lower s) = String.length s.
Proof. induction s as [|c s IH]; [reflexivity|]. cbn. now rewrite IH. Qed.

Lemma substring_lower (n m : nat) (s : string) :
  substring n m (lower s) = lower (substring n m s).
Proof.
  revert n m. induction s as [|c s IH]; intros n m.
  - destruct n, m; reflexivity.
  - destruct n as [|n].
    + destruct m as [|m]; [reflexivity|]. cbn. now rewrite IH.
    + cbn. apply IH.
Qed.

Lemma all_dots_lower (s : string) : all_dots (lower s) = all_dots s.
Proof.
  induction s as [|c s IH]; [reflexivity|].
  cbn. now rewrite is_dot_lower, IH.
Qed.

Lemma rfind_from_lower (P : ascii -> bool) (s : string) (offset : Z) :
  (forall c, P (lower_ascii c) = P c) ->
  rfind_from P (lower s) offset = rfind_from P s offset.
Proof.
  intros HP. revert offset. induction s as [|c s IH]; intros offset.
  - reflexivity.
  - cbn [lower rfind_from]. now rewrite IH, HP.
Qed.

Lemma splitext_lower (o : OS) (p : string) :
  splitext o (lower p)
  = (lower (fst (splitext o p)), lower (snd (splitext o p))).
Proof.
  unfold splitext, rfind, slice.
  rewrite !rfind_from_lower by (apply is_sep_lower || apply is_dot_lower).
  rewrite length_lower, !substring_lower, all_dots_lower.
  destruct (_ <? _)%Z; [|reflexivity].
  destruct (all_dots _); reflexivity.
Qed.

End LetterCase.

(** X8. [get_ext] looks at a path without regard to the case of its
    letters: two paths that differ in letter case only have the same
    extension. *)
Theorem get_ext_ignores_case (E : Env) (p1 p2 : string) :
  lower p1 = lower p2 -> get_ext E p1 = get_ext E p2.
Proof.
  intros Heq.
  assert (H : forall p, get_ext E p = split_file_path_ext (os E) (lower p)).
  { intros p. unfold get_ext, split_file_path_ext.
    now rewrite splitext_lower. }
  now rewrite !H, Heq.
Qed.

(** X9. [get_ext] returns lower-case letters only, so an extension written
    with a capital letter never selects a decoder: [_for_ext] with such an
    extension answers [None] on every path. *)
Theorem upper_case_extension_never_matches (E : Env) (e : string)
    (d : _Decoder) (path : string) (w : World) :
  lower e <> e ->
  get_ext E path <> e /\ _for_ext E (ExtStr e) d path w = (Ok None, w).
Proof.
  intros Hupper.
  assert (Hne : get_ext E path <> e).
  { intros <-. apply Hupper. unfold get_ext. apply lower_idem. }
  split; [exact Hne|].
  rewrite for_ext_gate. rewrite bool_decide_eq_false_2; [reflexivity|].
  cbn [ext_list]. now rewrite list_elem_of_singleton.
Qed.

(** ** Where the image of the chain comes from *)

(** X10. An image the loop returns is the answer of one decoder of the
    list: the decoders before it gave no image, the world is the one that
    decoder left, and the error kept beside the image is the one the
    earlier decoders left. *)
Theorem decode_loop_image_source (decoders : list (string * _Decoder))
    (path : string) (error error' : option exn) (w w' : World)
    (img : ndarray) :
  decode_loop decoders path None error w = (Ok (Some img, error'), w') ->
  exists before name (d : _Decoder) after w1,
    decoders = (before ++ (name, d) :: after)%list
    /\ decode_loop before path None error w = (Ok (None, error'), w1)
    /\ d path w1 = (Ok (Some img), w').
Proof.
  revert error w.
  induction decoders as [|[name d] rest IH]; intros error w H.
  - discriminate.
  - rewrite decode_loop_cons in H.
    destruct (d path w) as [[[img0|]|e] w1] eqn:Hd.
    + injection H as <- <- <-.
      exists [], name, d, rest, w. repeat split. exact Hd.
    + destruct (IH _ _ H) as (before & n & d' & after & w2 & -> & Hb & Hd').
      exists ((name, d) :: before), n, d', after, w2.
      repeat split; [|exact Hd'].
      cbn [app]. now rewrite decode_loop_cons, Hd.
    + destruct (IH _ _ H) as (before & n & d' & after & w2 & -> & Hb & Hd').
      exists ((name, d) :: before), n, d', after, w2.
      repeat split; [|exact Hd'].
      cbn [app]. now rewrite decode_loop_cons, Hd.
Qed.

(** ** The files a load touches *)

Section Files.

Variable E : Env.

Lemma read_dds_off_windows (path : string) (w : World) :
  platform_system (os E) <> "Windows" ->
  _read_dds E path w = (Ok None, w).
Proof.
  intros Hos. unfold _read_dds.
  destruct (negb (get_ext E path =? ".dds")%string); [reflexivity|].
  apply String.eqb_neq in Hos. now rewrite Hos.
Qed.

Lemma read_pil_keeps_world (path : string) (w : World) :
  snd (_read_pil E path w) = w.
Proof.
  unfold _read_pil.
  destruct (negb (bool_decide (get_ext E path ∈ get_pil_formats E)));
    [reflexivity|].
  unfold bind, read_fs, ret.
  now destruct (PIL_open_array E path (fs w)).
Qed.

Lemma decode_loop_keeps_fs (decoders : list (string * _Decoder))
    (path : string) (error : option exn) (w : World) :
  (forall name d, In (name, d) decoders ->
                  forall w1, fs (snd (d path w1)) = fs w1) ->
  fs (snd (decode_loop decoders path None error w)) = fs w.
Proof.
  revert error w.
  induction decoders as [|[name d] rest IH]; intros error w Hkeep.
  - reflexivity.
  - rewrite decode_loop_cons.
    pose proof (Hkeep name d (or_introl eq_refl) w) as Hd.
    assert (Hrest : forall n d', In (n, d') rest ->
                                 forall w1, fs (snd (d' path w1)) = fs w1).
    { intros n d' Hin. apply (Hkeep n d'). now right. }
    destruct (d path w) as [[[img|]|e] w1]; cbn [snd] in Hd.
    + exact Hd.
    + now rewrite IH.
    + now rewrite IH.
Qed.

(** Off Windows no decoder of the chain changes a file. *)
Lemma chain_keeps_fs_off_windows (path : string) (error : option exn)
    (w : World) :
  platform_system (os E) <> "Windows" ->
  fs (snd (decode_loop (_decoders E) path None error w)) = fs w.
Proof.
  intros Hos. apply decode_loop_keeps_fs.
  intros name d Hin w1. unfold _decoders in Hin.
  cbn [In] in Hin.
  destruct Hin as [[= <- <-]|[[= <- <-]|[[= <- <-]|[[= <- <-]|[]]]]].
  - rewrite for_ext_gate.
    destruct (bool_decide _); [|reflexivity].
    now rewrite read_pil_keeps_world.
  - apply read_cv_keeps_fs.
  - now rewrite read_dds_off_windows.
  - now rewrite read_pil_keeps_world.
Qed.

Lemma cleanup_fs (compressed : option string) (w1 w2 : World) :
  fs w1 = fs w2 ->
  fs (snd (cleanup E compressed w1)) = fs (snd (cleanup E compressed w2)).
Proof.
  intros Hfs. destruct compressed as [d|]; [|exact Hfs].
  unfold cleanup, bind, logger_warning, logger_emit, rmtree. cbn [fs].
  rewrite Hfs.
  destruct (fs w2 !! d) as [[|]|]; cbn [snd fs set_fs]; now rewrite ?Hfs.
Qed.

(** The files after a load, off Windows: those the cleanup leaves of the
    files staged. *)
Lemma load_fs_off_windows (_path unit : string) (texture : TEXTURE)
    (target : string) (w w0 : World) (compressed : option string)
    (path : string) :
  platform_system (os E) <> "Windows" ->
  stage E _path unit texture w = (Ok (compressed, path), w0) ->
  fs (snd (load_image_node E _path unit texture target w))
  = fs (snd (cleanup E compressed w0)).
Proof.
  intros Hos Hs. rewrite (load_image_node_run E _ _ _ _ _ _ _ _ Hs).
  pose proof (chain_keeps_fs_off_windows path None
                (snd (logger_debug ("Reading image from path: " +:+ path) w0))
                Hos) as Hfs.
  destruct (decode_loop_never_raises (_decoders E) path None None
              (snd (logger_debug ("Reading image from path: " +:+ path) w0)))
    as ([img error] & w1 & Hst).
  unfold _Decoder in *. rewrite Hst in *. cbn [snd] in Hfs.
  unfold bind at 1.
  rewrite <- (cleanup_fs compressed w1 w0) by exact Hfs.
  destruct (cleanup E compressed w1) as [[u|e] w2]; [|reflexivity].
  destruct img as [img|]; [reflexivity|]. now destruct error.
Qed.

Lemma decode_loop_pointwise (ds1 ds2 : list (string * _Decoder))
    (path : string) :
  Forall2 (fun a b => fst a = fst b /\ forall w, snd a path w = snd b path w)
    ds1 ds2 ->
  forall img error w,
    decode_loop ds1 path img error w = decode_loop ds2 path img error w.
Proof.
  induction 1 as [|[n1 d1] [n2 d2] r1 r2 [Hn Hd] _ IH]; intros img error w.
  - reflexivity.
  - cbn [fst snd] in Hn, Hd. subst n2.
    cbn [decode_loop]. unfold bind. rewrite !decode_step_run, Hd.
    destruct (d2 path w) as [[v|e] w1]; cbn [fst snd].
    + destruct v; [reflexivity|apply IH].
    + destruct img; [reflexivity|apply IH].
Qed.

End Files.

(** X11. Off Windows the node never runs texconv: with any other texconv
    in its place every load gives the same result and leaves the same
    world. *)
Theorem load_without_texconv (E : Env) (texconv : string -> M string)
    (_path unit : string) (texture : TEXTURE) (target : string) (w : World) :
  platform_system (os E) <> "Windows" ->
  load_image_node (with_texconv E texconv) _path unit texture target w
  = load_image_node E _path unit texture target w.
Proof.
  intros Hos.
  destruct (stage E _path unit texture w) as [[[compressed path]|e] w0] eqn:Hs.
  - rewrite (load_image_node_run E _ _ _ _ _ _ _ _ Hs).
    rewrite (load_image_node_run (with_texconv E texconv) _ _ _ _ _ _
               compressed path Hs).
    change (cleanup (with_texconv E texconv)) with (cleanup E).
    rewrite (decode_loop_pointwise (_decoders (with_texconv E texconv))
               (_decoders E) path); [reflexivity|].
    unfold _decoders. repeat constructor.
    intros w1. cbn [snd].
    rewrite (read_dds_off_windows E _ _ Hos).
    now apply (read_dds_off_windows (with_texconv E texconv)).
  - unfold load_image_node.
    change (stage (with_texconv E texconv)) with (stage E).
    unfold bind. now rewrite Hs.
Qed.

(** X12. Off Windows a load from a directory changes no file, whether it
    succeeds or fails: no temporary directory is made. *)
Theorem direct_load_keeps_fs (E : Env) (_path unit : string)
    (texture : TEXTURE) (target : string) (w : World) :
  platform_system (os E) <> "Windows" ->
  endswith _path "units.scd" = false ->
  fs (snd (load_image_node E _path unit texture target w)) = fs w.
Proof.
  intros Hos Hdir.
  assert (Hs : exists p, stage E _path unit texture w = (Ok (None, p), w)).
  { unfold stage, resolve. rewrite Hdir. eexists. reflexivity. }
  destruct Hs as [p Hs].
  now rewrite (load_fs_off_windows E _ _ _ _ _ _ _ _ Hos Hs).
Qed.

(** ** A texture no decoder is listed for *)

(** X13. Off Windows, when neither OpenCV nor PIL lists [.dds], no decoder
    applies to the working path: once the texture is staged, every load
    runs its cleanup and raises the [RuntimeError] whose message is the
    sentence of line 219 with the working path between double quotes
    (character 034), whatever the file holds. *)
Theorem load_unreadable (E : Env) (_path unit : string) (texture : TEXTURE)
    (target : string) (w w0 : World) (compressed : option string)
    (path : string) :
  platform_system (os E) <> "Windows" ->
  ".dds" ∉ get_opencv_formats E ->
  ".dds" ∉ get_pil_formats E ->
  stage E _path unit texture w = (Ok (compressed, path), w0) ->
  load_image_node E _path unit texture target w
  = (cleanup E compressed ;;
     raise (RuntimeError
              ("The image " +:+ String "034"%char "" +:+ path
                 +:+ String "034"%char ""
                 +:+ " you are trying to read cannot be read by chaiNNer.")))
      (snd (logger_debug ("Reading image from path: " +:+ path) w0)).
Proof.
  intros Hos Hcv Hpil Hs.
  change (RuntimeError _) with (RuntimeError (unreadable_msg path)).
  rewrite (load_image_node_run E _ _ _ _ _ _ _ _ Hs).
  destruct (stage_path E _ _ _ _ _ _ _ Hs) as [base ->].
  pose proof (get_ext_texture_file E (base +:+ "\" +:+ unit +:+ "\" +:+ unit)
                texture) as Hext.
  set (path := (base +:+ "\" +:+ unit +:+ "\" +:+ unit) +:+ "_"
                 +:+ TEXTURE_name texture +:+ ".dds") in *.
  assert (Hpilnone : forall w1, _read_pil E path w1 = (Ok None, w1)).
  { intros w1. unfold _read_pil. rewrite Hext.
    now rewrite (bool_decide_eq_false_2 _ Hpil). }
  assert (Hloop : forall w1,
            decode_loop (_decoders E) path None None w1 = (Ok (None, None), w1)).
  { intros w1. unfold _decoders.
    rewrite decode_loop_cons, for_ext_gate.
    replace (if bool_decide _ then _ else _) with (@Ok (option ndarray) None, w1)
      by (destruct (bool_decide _); [now rewrite Hpilnone|reflexivity]).
    rewrite decode_loop_cons.
    replace (_read_cv E path w1) with (@Ok (option ndarray) None, w1)
      by (unfold _read_cv; rewrite Hext;
          now rewrite (bool_decide_eq_false_2 _ Hcv)).
    rewrite decode_loop_cons, (read_dds_off_windows E _ _ Hos).
    now rewrite decode_loop_cons, Hpilnone. }
  now rewrite Hloop.
Qed.

(** ** Staging *)

Section StagingOutcomes.

Variable E : Env.

Lemma stage_archive_inv (_path unit : string) (texture : TEXTURE)
    (w w0 : World) (d path : string) :
  stage E _path unit texture w = (Ok (Some d, path), w0) ->
  let filename := unit +:+ "_" +:+ TEXTURE_name texture in
  let member := "units/" +:+ unit +:+ "/" +:+ filename +:+ ".dds" in
  let sep := os_sep (os E) in
  let base := d +:+ String sep "" in
  let arcname := arcname_of (os E) member in
  fst (mkdtemp E "chaiNNerSCD-" w) = Ok d
  /\ fs w !! d = None
  /\ path = d +:+ "\units\" +:+ unit +:+ "\" +:+ filename +:+ ".dds"
  /\ exists b z content,
      fs w !! _path = Some (File b)
      /\ zip_entries E b = Some z
      /\ z !! member = Some content
      /\ w0 = set_fs (<[base +:+ arcname := File content]>
                        (makedirs (upper_dirs sep base arcname)
                           (<[d := Dir]> (fs w)))) w.
Proof.
  unfold stage, resolve.
  destruct (endswith _path "units.scd"); [|intros [=]].
  unfold bind at 1. pose proof (mkdtemp_run E "chaiNNerSCD-" w) as Hrun.
  destruct (mkdtemp E "chaiNNerSCD-" w) as [[d'|e] w1]; [|discriminate].
  destruct Hrun as [Hd ->].
  unfold bind, ZipFile, ZipFile_extract, ret. cbn [fs set_fs].
  destruct (_ !! _path) as [[b|]|] eqn:Ha; try discriminate.
  destruct (zip_entries E b) as [z|] eqn:Hz; [|discriminate].
  destruct (z !! _) as [content|] eqn:Hm; [|discriminate].
  intros [= <- <- <-]. cbv zeta.
  split; [reflexivity|]. split; [exact Hd|]. split; [reflexivity|].
  exists b, z, content. repeat split; try assumption.
  apply lookup_insert_Some in Ha as [[_ [=]]|[_ Ha]]. exact Ha.
Qed.

End StagingOutcomes.


Section StagedFiles.

Variable E : Env.

Lemma prefix_length (a b : string) :
  String.prefix a b = true -> String.length a <= String.length b.
Proof.
  revert b. induction a as [|x a IH]; intros b H; [simpl; lia|].
  destruct b as [|y b]; [discriminate|].
  cbn [String.prefix] in H. destruct (ascii_dec x y); [|discriminate].
  apply IH in H. simpl. lia.
Qed.

Lemma prefix_app (a b c : string) :
  String.prefix a b = true -> String.prefix a (b +:+ c) = true.
Proof.
  revert b. induction a as [|x a IH]; intros b H.
  - now destruct (b +:+ c).
  - destruct b as [|y b]; [discriminate|].
    rewrite app_cons. cbn [String.prefix] in *.
    destruct (ascii_dec x y); [now apply IH|discriminate].
Qed.

Lemma prefix_refl (a : string) : String.prefix a a = true.
Proof.
  induction a as [|x a IH]; [reflexivity|].
  cbn [String.prefix]. now destruct (ascii_dec x x).
Qed.

Lemma prefix_app_cancel (a x y : string) :
  String.prefix (a +:+ x) (a +:+ y) = String.prefix x y.
Proof.
  induction a as [|c a IH]; [reflexivity|].
  rewrite !app_cons. cbn [String.prefix].
  now destruct (ascii_dec c c).
Qed.

Lemma not_inside_self_sep (d : string) (c : ascii) (x : string) :
  d +:+ String c x <> d.
Proof.
  intros H. apply (f_equal String.length) in H.
  rewrite length_app_str in H. simpl in H. lia.
Qed.

Lemma upper_dirs_prefix (sep : ascii) (base0 base rest x : string) :
  String.prefix base0 base = true ->
  In x (upper_dirs sep base rest) ->
  String.prefix base0 x = true.
Proof.
  revert base. induction rest as [|c rest IH]; intros base Hb Hin.
  - destruct Hin.
  - cbn [upper_dirs] in Hin.
    destruct (Ascii.eqb c sep).
    + destruct Hin as [<-|Hin]; [exact Hb|].
      apply (IH (base +:+ String c "")); [now apply prefix_app|exact Hin].
    + apply (IH (base +:+ String c "")); [now apply prefix_app|exact Hin].
Qed.

Lemma makedirs_lookup_other (dirs : list string) (f : gmap string node)
    (k : string) :
  ~ In k dirs -> makedirs dirs f !! k = f !! k.
Proof.
  induction dirs as [|x dirs IH]; intros Hk; [reflexivity|].
  cbn [makedirs foldr]. rewrite lookup_insert_ne.
  - apply IH. intros Hin. apply Hk. now right.
  - intros ->. apply Hk. now left.
Qed.

Lemma makedirs_lookup_dir (dirs : list string) (f : gmap string node)
    (k : string) :
  f !! k = Some Dir -> makedirs dirs f !! k = Some Dir.
Proof.
  intros Hk. induction dirs as [|x dirs IH]; [exact Hk|].
  cbn [makedirs foldr]. destruct (decide (x = k)) as [->|Hne].
  - apply lookup_insert_eq.
  - now rewrite lookup_insert_ne.
Qed.

(** What extraction writes lies below the temporary directory. *)
Lemma staged_lookup_outside (d : string) (arcname : string)
    (content : list Byte.byte) (f : gmap string node) (k : string) :
  let sep := os_sep (os E) in
  let base := d +:+ String sep "" in
  ~ inside (os E) d k ->
  (<[base +:+ arcname := File content]>
     (makedirs (upper_dirs sep base arcname) (<[d := Dir]> f))) !! k
  = f !! k.
Proof.
  intros sep base Hout.
  assert (Hpre : String.prefix base k <> true).
  { intros H. apply Hout. now right. }
  rewrite lookup_insert_ne.
  - rewrite makedirs_lookup_other.
    + apply lookup_insert_ne. intros ->. apply Hout. now left.
    + intros Hin. apply Hpre.
      apply (upper_dirs_prefix sep base base arcname k);
        [apply prefix_refl|exact Hin].
  - intros <-. apply Hpre. apply prefix_app, prefix_refl.
Qed.

Lemma staged_lookup_tempdir (d : string) (arcname : string)
    (content : list Byte.byte) (f : gmap string node) :
  let sep := os_sep (os E) in
  let base := d +:+ String sep "" in
  (<[base +:+ arcname := File content]>
     (makedirs (upper_dirs sep base arcname) (<[d := Dir]> f))) !! d
  = Some Dir.
Proof.
  intros sep base. rewrite lookup_insert_ne.
  - apply makedirs_lookup_dir, lookup_insert_eq.
  - unfold base. rewrite app_assoc_str. apply not_inside_self_sep.
Qed.

End StagedFiles.

(** X15. Off Windows a load from the archive leaves no file behind: when
    staging succeeds and nothing stood below the new directory before, the
    files after the load, whether it returned an image or raised, are the
    files before it. *)
Theorem archive_load_restores_fs (E : Env) (_path unit : string)
    (texture : TEXTURE) (target : string) (w w0 : World) (d path : string) :
  platform_system (os E) <> "Windows" ->
  stage E _path unit texture w = (Ok (Some d, path), w0) ->
  (forall k, inside (os E) d k -> fs w !! k = None) ->
  fs (snd (load_image_node E _path unit texture target w)) = fs w.
Proof.
  intros Hos Hs Hfree.
  rewrite (load_fs_off_windows E _ _ _ _ _ _ _ _ Hos Hs).
  destruct (stage_archive_inv E _ _ _ _ _ _ _ Hs)
    as (_ & _ & _ & b & z & content & _ & _ & _ & ->).
  unfold cleanup, bind, logger_warning, logger_emit, rmtree.
  cbn [fs set_fs]. rewrite staged_lookup_tempdir. cbn [snd fs set_fs].
  match goal with |- context [upper_dirs _ _ ?a] => set (arc := a) end.
  apply map_eq. intros k.
  destruct (decide (inside (os E) d k)) as [Hin|Hout].
  - rewrite (Hfree k Hin). apply map_lookup_filter_None. right.
    intros x _ Hn. now apply Hn.
  - rewrite <- (staged_lookup_outside E d arc content (fs w) k Hout).
    match goal with
    | |- filter _ ?m !! k = _ => destruct (m !! k) as [x|] eqn:Hk
    end.
    + now apply map_lookup_filter_Some_2.
    + apply map_lookup_filter_None. now left.
Qed.

Section ArcNames.

Lemma all_chars_app (P : ascii -> bool) (s t : string) :
  all_chars P (s +:+ t) = all_chars P s && all_chars P t.
Proof.
  induction s as [|c s IH]; [reflexivity|].
  rewrite app_cons. cbn [all_chars]. now rewrite IH, andb_assoc.
Qed.

Lemma all_chars_impl (P Q : ascii -> bool) (s : string) :
  (forall c, P c = true -> Q c = true) ->
  all_chars P s = true -> all_chars Q s = true.
Proof.
  intros HPQ. induction s as [|c s IH]; [reflexivity|].
  cbn [all_chars]. intros [Hc Hs]%andb_prop.
  now rewrite (HPQ c Hc), IH.
Qed.

Lemma replace_char_app (a b : ascii) (s t : string) :
  replace_char a b (s +:+ t) = replace_char a b s +:+ replace_char a b t.
Proof.
  induction s as [|c s IH]; [reflexivity|].
  rewrite app_cons. cbn [replace_char]. now rewrite IH, app_cons.
Qed.

Lemma replace_char_absent (a b : ascii) (s : string) :
  all_chars (fun c => negb (Ascii.eqb c a)) s = true ->
  replace_char a b s = s.
Proof.
  induction s as [|c s IH]; [reflexivity|].
  cbn [all_chars replace_char]. intros [Hc Hs]%andb_prop.
  apply negb_true_iff in Hc. now rewrite Hc, IH.
Qed.

Lemma map_chars_fixed (f : ascii -> ascii) (s : string) :
  all_chars (fun c => Ascii.eqb (f c) c) s = true -> map_chars f s = s.
Proof.
  induction s as [|c s IH]; [reflexivity|].
  cbn [all_chars map_chars]. intros [Hc Hs]%andb_prop.
  apply Ascii.eqb_eq in Hc. now rewrite Hc, IH.
Qed.

Lemma split_on_part (sep : ascii) (a b : string) :
  all_chars (fun c => negb (Ascii.eqb c sep)) a = true ->
  split_on sep (a +:+ String sep b) = a :: split_on sep b.
Proof.
  induction a as [|c a IH].
  - intros _. rewrite app_nil_l. cbn [split_on]. now rewrite Ascii.eqb_refl.
  - cbn [all_chars]. intros [Hc Ha]%andb_prop.
    apply negb_true_iff in Hc.
    rewrite app_cons. cbn [split_on]. now rewrite Hc, IH.
Qed.

Lemma split_on_whole (sep : ascii) (a : string) :
  all_chars (fun c => negb (Ascii.eqb c sep)) a = true ->
  split_on sep a = [a].
Proof.
  induction a as [|c a IH]; [reflexivity|].
  cbn [all_chars]. intros [Hc Ha]%andb_prop.
  apply negb_true_iff in Hc.
  cbn [split_on]. now rewrite Hc, IH.
Qed.

Lemma rstrip_dots_keeps (s : string) :
  match last_char s with
  | Some c => Ascii.eqb c "."
  | None => false
  end = false ->
  rstrip_dots s = s.
Proof.
  induction s as [|c s IH]; [reflexivity|].
  destruct s as [|c' s].
  - cbn. now intros ->.
  - intros H. change (last_char (String c (String c' s)))
      with (last_char (String c' s)) in H.
    cbn [rstrip_dots] in *. now rewrite (IH H).
Qed.

(** The three facts [plain_part] puts together. *)
Lemma plain_part_facts (s : string) :
  plain_part s = true ->
  s <> ""
  /\ all_chars (fun c => negb (Ascii.eqb c "/" || Ascii.eqb c "\"
                               || windows_illegal c)) s = true
  /\ match last_char s with
     | Some c => Ascii.eqb c "."
     | None => false
     end = false.
Proof.
  unfold plain_part, nonempty.
  intros [[Hne Hall]%andb_prop Hlast]%andb_prop.
  apply negb_true_iff in Hne, Hlast. apply String.eqb_neq in Hne.
  auto.
Qed.

Lemma plain_part_valid (s : string) :
  plain_part s = true ->
  negb ((s =? "")%string || (s =? ".")%string || (s =? "..")%string) = true.
Proof.
  intros (Hne & _ & Hlast)%plain_part_facts.
  apply String.eqb_neq in Hne. rewrite Hne.
  destruct (String.eqb_spec s ".") as [->|_]; [discriminate Hlast|].
  destruct (String.eqb_spec s "..") as [->|_]; [discriminate Hlast|].
  reflexivity.
Qed.

(** On Windows a member of three plain parts is written where the parts,
    joined by backslashes, say. *)
Lemma arcname_of_plain_parts (a b c : string) :
  plain_part a = true -> plain_part b = true -> plain_part c = true ->
  arcname_of Windows (a +:+ String "/" (b +:+ String "/" c))
  = a +:+ String "\" (b +:+ String "\" c).
Proof.
  intros Ha Hb Hc.
  pose proof (plain_part_valid a Ha) as Hva.
  pose proof (plain_part_valid b Hb) as Hvb.
  pose proof (plain_part_valid c Hc) as Hvc.
  destruct (plain_part_facts a Ha) as (Hna & Hpa & Hla).
  destruct (plain_part_facts b Hb) as (Hnb & Hpb & Hlb).
  destruct (plain_part_facts c Hc) as (Hnc & Hpc & Hlc).
  assert (Hslash : forall s,
            all_chars (fun c => negb (Ascii.eqb c "/" || Ascii.eqb c "\"
                                      || windows_illegal c)) s = true ->
            all_chars (fun c => negb (Ascii.eqb c "/")) s = true).
  { intros s. apply all_chars_impl. intros x Hx.
    destruct (Ascii.eqb x "/"); [discriminate Hx|reflexivity]. }
  assert (Hback : forall s,
            all_chars (fun c => negb (Ascii.eqb c "/" || Ascii.eqb c "\"
                                      || windows_illegal c)) s = true ->
            all_chars (fun c => negb (Ascii.eqb c "\")) s = true).
  { intros s. apply all_chars_impl. intros x Hx.
    destruct (Ascii.eqb x "\"); [|reflexivity].
    now rewrite orb_true_r in Hx. }
  assert (Hlegal : forall s,
            all_chars (fun c => negb (Ascii.eqb c "/" || Ascii.eqb c "\"
                                      || windows_illegal c)) s = true ->
            all_chars (fun c => Ascii.eqb
                                  (if windows_illegal c then "_"%char else c) c)
              s = true).
  { intros s. apply all_chars_impl. intros x Hx.
    destruct (windows_illegal x); [now rewrite orb_true_r in Hx|].
    apply Ascii.eqb_refl. }
  assert (Hsplit : split_on "\" (a +:+ String "\" (b +:+ String "\" c))
                   = [a; b; c]).
  { rewrite split_on_part by now apply Hback.
    rewrite split_on_part by now apply Hback.
    now rewrite split_on_whole by now apply Hback. }
  unfold arcname_of. cbn [os_sep].
  rewrite replace_char_app. cbn [replace_char].
  rewrite replace_char_app. cbn [replace_char].
  rewrite !replace_char_absent by now apply Hslash.
  change (if Ascii.eqb "/" "/" then "\"%char else "/"%char) with "\"%char.
  rewrite Hsplit. cbn [List.filter]. rewrite Hva, Hvb, Hvc.
  cbn [join]. unfold sanitize_windows_name.
  rewrite map_chars_fixed.
  - rewrite Hsplit. cbn [map].
    rewrite !rstrip_dots_keeps by assumption.
    cbn [List.filter]. unfold nonempty.
    apply String.eqb_neq in Hna, Hnb, Hnc. now rewrite Hna, Hnb, Hnc.
  - rewrite all_chars_app. cbn [all_chars]. rewrite all_chars_app.
    cbn [all_chars]. rewrite !Hlegal by assumption. reflexivity.
Qed.

End ArcNames.

(** X16. On Windows, for a unit name that is one plain part of a path (not
    empty, no separator, none of the characters Windows forbids in a name,
    no dot at its end), the path the node hands to the decoders after
    staging holds the bytes of the archive member
    [units/{unit}/{unit}_{suffix}.dds]. *)
Theorem staged_file_on_windows (E : Env) (_path unit : string)
    (texture : TEXTURE) (w w0 : World) (d path : string) :
  os E = Windows ->
  plain_part unit = true ->
  stage E _path unit texture w = (Ok (Some d, path), w0) ->
  exists b z content,
    fs w !! _path = Some (File b)
    /\ zip_entries E b = Some z
    /\ z !! ("units/" +:+ unit +:+ "/"
               +:+ (unit +:+ "_" +:+ TEXTURE_name texture) +:+ ".dds")
       = Some content
    /\ fs w0 !! path = Some (File content).
Proof.
  intros Hos Hunit Hs.
  destruct (stage_archive_inv E _ _ _ _ _ _ _ Hs)
    as (_ & _ & -> & b & z & content & Ha & Hz & Hm & ->).
  exists b, z, content. repeat split; try assumption.
  cbn [fs set_fs]. rewrite Hos. cbn [os_sep].
  set (file := (unit +:+ "_" +:+ TEXTURE_name texture) +:+ ".dds").
  assert (Hfile : plain_part file = true).
  { destruct (plain_part_facts unit Hunit) as (Hn & Hp & Hl).
    assert (Hname : all_chars
                      (fun c => negb (Ascii.eqb c "/" || Ascii.eqb c "\"
                                      || windows_illegal c))
                      (TEXTURE_name texture) = true) by now destruct texture.
    unfold plain_part, file.
    apply andb_true_intro; split; [apply andb_true_intro; split|].
    - unfold nonempty. apply negb_true_iff, String.eqb_neq. intros Hempty.
      apply (f_equal String.length) in Hempty.
      rewrite !length_app_str in Hempty. simpl in Hempty. lia.
    - rewrite !all_chars_app, Hp, Hname. reflexivity.
    - rewrite last_char_app. reflexivity. }
  change ("units/" +:+ unit +:+ "/" +:+ file)
    with ("units" +:+ String "/" (unit +:+ String "/" file)).
  rewrite arcname_of_plain_parts by (reflexivity || assumption).
  replace (d +:+ "\units\" +:+ unit +:+ "\" +:+ file)
    with ((d +:+ "\") +:+ "units" +:+ String "\" (unit +:+ String "\" file))
    by now rewrite !app_assoc_str.
  apply lookup_insert_eq.
Qed.

(** X17. Where the separator is a slash, extraction writes nothing at the
    path the node hands to the decoders: after staging that path holds what
    it held before the call, so a load from the archive reads the member
    only if the same bytes already stood at that path. *)
Theorem staged_file_off_windows (E : Env) (sysname _path unit : string)
    (texture : TEXTURE) (w w0 : World) (d path : string) :
  os E = Posix sysname ->
  stage E _path unit texture w = (Ok (Some d, path), w0) ->
  fs w0 !! path = fs w !! path.
Proof.
  intros Hos Hs.
  destruct (stage_archive_inv E _ _ _ _ _ _ _ Hs)
    as (_ & _ & -> & b & z & content & _ & _ & _ & ->).
  cbn [fs set_fs]. apply staged_lookup_outside.
  intros [Heq|Hpre].
  - now apply not_inside_self_sep in Heq.
  - rewrite Hos in Hpre. cbn [os_sep] in Hpre.
    rewrite prefix_app_cancel in Hpre. discriminate.
Qed.


(** ** The error of the texture decoder *)

Section ReadDds.

Variable E : Env.

Lemma read_cv_raises (path : string) (w : World) (e : exn) :
  fst (_read_cv E path w) = Raise e ->
  e = RuntimeError (corrupt_msg path)
  \/ exists cause, e = RuntimeErrorFrom (corrupt_msg path) cause.
Proof.
  intros Hraise. unfold _read_cv in Hraise.
  destruct (negb (bool_decide (get_ext E path ∈ get_opencv_formats E)));
    [discriminate|].
  unfold bind, try_except, np_fromfile, lift, read_fs, logger_warning,
    logger_emit, ret, raise in Hraise.
  destruct (fs w !! path) as [[b|]|];
    [destruct (cv2_imdecode E b) as [[i|]|e0]|..];
    cbn [fs fst] in Hraise; try discriminate;
    destruct (cv2_imread E path (fs w)) as [[j|]|e'];
    cbn [fst] in Hraise; try discriminate;
    injection Hraise as <-; eauto.
Qed.

Lemma read_dds_run (path png : string) (w w1 : World) (b : list Byte.byte) :
  get_ext E path = ".dds" ->
  platform_system (os E) = "Windows" ->
  dds_to_png_texconv E path w = (Ok png, w1) ->
  fs w1 !! png = Some (File b) ->
  _read_dds E path w
  = (fst (_read_cv E png w1),
     set_fs (delete png (fs w1)) (snd (_read_cv E png w1))).
Proof.
  intros Hext Hos Htex Hpng. unfold _read_dds. rewrite Hext, Hos.
  change (negb (".dds" =? ".dds")%string) with false.
  change (negb ("Windows" =? "Windows")%string) with false.
  cbv iota. unfold bind. rewrite Htex.
  pose proof (read_cv_keeps_fs E png w1) as Hfs.
  unfold try_finally, os_remove.
  destruct (_read_cv E png w1) as [r w2]. cbn [fst snd] in *.
  now rewrite Hfs, Hpng.
Qed.

End ReadDds.

(** X18. When the texture decoder has converted the texture and then
    fails, its error is the [RuntimeError] of the OpenCV decoder, and the
    path between the double quotes (character 034) of its message is the
    temporary PNG, a file that is gone when the error arrives, not the
    texture that was asked for. *)
Theorem read_dds_failure_names_png (E : Env) (path png : string)
    (w w1 : World) (b : list Byte.byte) (e : exn) :
  get_ext E path = ".dds" ->
  platform_system (os E) = "Windows" ->
  dds_to_png_texconv E path w = (Ok png, w1) ->
  fs w1 !! png = Some (File b) ->
  fst (_read_dds E path w) = Raise e ->
  let msg := "Error reading image image from path " +:+ String "034"%char ""
               +:+ png +:+ String "034"%char "" +:+ ". Image may be corrupt." in
  (e = RuntimeError msg \/ exists cause, e = RuntimeErrorFrom msg cause)
  /\ fs (snd (_read_dds E path w)) !! png = None.
Proof.
  intros Hext Hos Htex Hpng Hraise msg.
  change msg with (corrupt_msg png). clear msg.
  rewrite (read_dds_run E path png w w1 b Hext Hos Htex Hpng) in *.
  cbn [fst snd fs set_fs] in *. split.
  - now apply (read_cv_raises E png w1).
  - apply lookup_delete_eq.
Qed.


(** ** The further properties, run *)

Section FurtherScenarios.

Import Scenario Files.

Ltac not_listed :=
  let H := fresh in
  intros H;
  repeat (apply elem_of_cons in H as [H|H]; [discriminate H|]);
  now apply elem_of_nil in H.

Lemma read_cv_not_applicable_iff_witness :
  fst (_read_cv env texture_file world_direct) = Ok None.
Proof.
  apply (proj2 (read_cv_not_applicable_iff env texture_file world_direct)).
  change (get_ext env texture_file) with ".dds". not_listed.
Defined.

Lemma read_cv_failure_witness :
  let msg := "Error reading image image from path " +:+ String "034"%char ""
               +:+ "C:\img\bad.png" +:+ String "034"%char ""
               +:+ ". Image may be corrupt." in
  fst (_read_cv env "C:\img\bad.png" world_png) = Raise (RuntimeError msg)
  /\ ((cv2_imread env "C:\img\bad.png" (fs world_png) = Ok None
       /\ RuntimeError msg = RuntimeError msg)
      \/ exists cause,
          cv2_imread env "C:\img\bad.png" (fs world_png) = Raise cause
          /\ RuntimeError msg = RuntimeErrorFrom msg cause).
Proof.
  split; [vm_compute; reflexivity|].
  apply (read_cv_failure env "C:\img\bad.png" world_png).
  vm_compute. reflexivity.
Defined.

Lemma read_cv_first_attempt_wins_witness :
  _read_cv (with_imread env imread_broken) "C:\img\good.png" world_png
  = (Ok (Some (pixel 7 8 9)), world_png).
Proof.
  apply (read_cv_first_attempt_wins env "C:\img\good.png" world_png
           [Byte.x07; Byte.x08; Byte.x09] (pixel 7 8 9)).
  - vm_compute. repeat constructor.
  - reflexivity.
  - reflexivity.
Defined.

Lemma read_cv_fallback_witness :
  fst (_read_cv env "C:\img\none.png" world_png)
  = Raise (RuntimeError (corrupt_msg "C:\img\none.png"))
  /\ log (snd (_read_cv env "C:\img\none.png" world_png))
     = [(WARNING, "Error loading image, trying with imdecode: C:\img\none.png")].
Proof.
  destruct (read_cv_fallback env "C:\img\none.png" world_png)
    as (Hres & _ & Hlog).
  - vm_compute. repeat constructor.
  - intros img. vm_compute. discriminate.
  - split; [exact Hres|]. rewrite Hlog. reflexivity.
Defined.

Lemma read_pil_outcome_witness :
  fst (_read_pil env "C:\img\none.png" world_png)
  = Raise (OSError "C:\img\none.png").
Proof.
  apply (proj2 (proj2 (read_pil_outcome env "C:\img\none.png" world_png))).
  - vm_compute. repeat constructor.
  - reflexivity.
Defined.

Lemma to_bgr_involutive_witness :
  pixel 1 2 3 = to_bgr (pixel 3 2 1).
Proof.
  apply (proj2 (to_bgr_involutive (pixel 1 2 3))). reflexivity.
Defined.

Lemma for_ext_set_semantics_witness :
  _for_ext env (ExtStr ".jpg") (_read_pil env) "C:\img\photo.JPG" world_jpeg
  = _for_ext env (ExtIter [".jpg"; ".jpg"]) (_read_pil env) "C:\img\photo.JPG"
      world_jpeg.
Proof.
  apply (for_ext_set_semantics env (ExtStr ".jpg") (ExtIter [".jpg"; ".jpg"])).
  intros x. cbn [ext_list]. rewrite !elem_of_cons. tauto.
Defined.

Lemma get_ext_ignores_case_witness :
  get_ext env "C:\Tex\Units\UEB0301_ALBEDO.DDS"
  = get_ext env "c:\tex\units\ueb0301_albedo.dds".
Proof.
  apply (get_ext_ignores_case env). reflexivity.
Defined.

Lemma upper_case_extension_never_matches_witness :
  _for_ext env (ExtStr ".JPG") (_read_pil env) "C:\img\photo.JPG" world_jpeg
  = (Ok None, world_jpeg).
Proof.
  apply (upper_case_extension_never_matches env ".JPG"). discriminate.
Defined.

Lemma decode_loop_image_source_witness :
  exists before name (d : _Decoder) after w1,
    _decoders env = (before ++ (name, d) :: after)%list
    /\ decode_loop before texture_file None None world_direct
       = (Ok (None, None), w1)
    /\ d texture_file w1
       = (Ok (Some (pixel 1 2 3)),
          snd (decode_loop (_decoders env) texture_file None None world_direct)).
Proof.
  apply (decode_loop_image_source (_decoders env) texture_file None None
           world_direct).
  vm_compute. reflexivity.
Defined.

Lemma load_without_texconv_witness :
  load_image_node (with_texconv env_linux no_texconv) "C:\tex\units\" "UEB0301"
    normalsTS "" world_direct
  = load_image_node env_linux "C:\tex\units\" "UEB0301" normalsTS ""
      world_direct.
Proof.
  apply (load_without_texconv env_linux no_texconv). discriminate.
Defined.

Lemma direct_load_keeps_fs_witness :
  fs (snd (load_image_node env_linux "C:\tex\units\" "UEB0301" normalsTS ""
             world_direct))
  = fs world_direct.
Proof.
  apply (direct_load_keeps_fs env_linux).
  - discriminate.
  - reflexivity.
Defined.

Lemma load_unreadable_witness :
  fst (load_image_node env_no_dds "C:\tex\units\" "UEB0301" normalsTS ""
         world_direct)
  = Raise (RuntimeError
             ("The image " +:+ String "034"%char "" +:+ texture_file
                +:+ String "034"%char ""
                +:+ " you are trying to read cannot be read by chaiNNer.")).
Proof.
  refine (f_equal fst
            (load_unreadable env_no_dds "C:\tex\units\" "UEB0301" normalsTS ""
               world_direct world_direct None texture_file _ _ _ _)).
  - discriminate.
  - not_listed.
  - not_listed.
  - reflexivity.
Defined.


Lemma archive_load_restores_fs_witness :
  fs (snd (load_image_node env_linux "C:\tex\units.scd" "UEB0301" Albedo ""
             world_archive))
  = fs world_archive.
Proof.
  apply (archive_load_restores_fs env_linux "C:\tex\units.scd" "UEB0301" Albedo
           "" world_archive
           (snd (stage env_linux "C:\tex\units.scd" "UEB0301" Albedo
                   world_archive))
           "/tmp/chaiNNerSCD-k3x9wq1z"
           "/tmp/chaiNNerSCD-k3x9wq1z\units\UEB0301\UEB0301_Albedo.dds").
  - discriminate.
  - vm_compute. reflexivity.
  - intros k [->|Hpre].
    + reflexivity.
    + apply lookup_singleton_None. intros <-. discriminate Hpre.
Defined.

Lemma staged_file_on_windows_witness :
  exists b z content,
    fs world_archive !! "C:\tex\units.scd" = Some (File b)
    /\ zip_entries env b = Some z
    /\ z !! "units/UEB0301/UEB0301_Albedo.dds" = Some content
    /\ fs (snd (stage env "C:\tex\units.scd" "UEB0301" Albedo world_archive))
       !! staged_file = Some (File content).
Proof.
  apply (staged_file_on_windows env "C:\tex\units.scd" "UEB0301" Albedo
           world_archive
           (snd (stage env "C:\tex\units.scd" "UEB0301" Albedo world_archive))
           tempdir staged_file).
  - reflexivity.
  - reflexivity.
  - vm_compute. reflexivity.
Defined.

Lemma staged_file_off_windows_witness :
  fs (snd (stage env_linux "C:\tex\units.scd" "UEB0301" Albedo world_archive))
  !! "/tmp/chaiNNerSCD-k3x9wq1z\units\UEB0301\UEB0301_Albedo.dds"
  = fs world_archive
    !! "/tmp/chaiNNerSCD-k3x9wq1z\units\UEB0301\UEB0301_Albedo.dds".
Proof.
  apply (staged_file_off_windows env_linux "Linux" "C:\tex\units.scd" "UEB0301"
           Albedo world_archive _ "/tmp/chaiNNerSCD-k3x9wq1z").
  - reflexivity.
  - vm_compute. reflexivity.
Defined.

Lemma read_dds_failure_names_png_witness :
  let msg := "Error reading image image from path " +:+ String "034"%char ""
               +:+ "C:\tex\units\UEB0301\UEB0301_normalsTS.dds.png"
               +:+ String "034"%char "" +:+ ". Image may be corrupt." in
  fst (_read_dds env texture_file world_bad_texture) = Raise (RuntimeError msg)
  /\ fs (snd (_read_dds env texture_file world_bad_texture))
     !! (texture_file +:+ ".png") = None.
Proof.
  intros msg.
  assert (Hrun : fst (_read_dds env texture_file world_bad_texture)
                 = Raise (RuntimeError msg))
    by (vm_compute; reflexivity).
  split; [exact Hrun|].
  apply (read_dds_failure_names_png env texture_file (texture_file +:+ ".png")
           world_bad_texture
           (snd (dds_to_png_texconv env texture_file world_bad_texture))
           [Byte.x01; Byte.x02]
           (RuntimeError msg)).
  - reflexivity.
  - reflexivity.
  - vm_compute. reflexivity.
  - vm_compute. reflexivity.
  - exact Hrun.
Defined.

Lemma load_image_node_cleans_staged_witness :
  fs (snd (load_image_node env "C:\tex\units.scd" "UEB0301" Albedo "C:\out"
             world_archive)) !! tempdir = None
  \/ fst (load_image_node env "C:\tex\units.scd" "UEB0301" Albedo "C:\out"
            world_archive) = Raise (OSError tempdir).
Proof.
  apply (load_image_node_cleans_staged env "C:\tex\units.scd" "UEB0301" Albedo
           "C:\out" world_archive
           (snd (stage env "C:\tex\units.scd" "UEB0301" Albedo world_archive))
           tempdir staged_file).
  vm_compute. reflexivity.
Defined.

End FurtherScenarios.
